(** * Imgfans-js: a shallow embedding of [src/index.ts]

    The client library is modelled function by function:
    - JavaScript values as they reach the library (JSON payloads, thrown
      errors), with truthiness, [||], optional chaining and property reads;
    - [ImgfansError], [ImgfansError.fromError] and
      [ImgfansError.getReadableErrorMessage];
    - the constructor of [ImgfansClient], [preprocessInput], [performUpload]
      and [upload], as computations in an error monad that records the
      calls made to the network and to the file system;
    - the response accessors.

    Platform functions the library calls (string prefix test, the regular
    expression of the data-URI branch, Node's base64 codec, [path.basename])
    are modelled next to their call sites; the network, the file system and
    the URL parser are an explicit environment.  Strings are sequences of
    8-bit characters (code units below 256), numbers are integers. *)

From Stdlib Require Import String Ascii List ZArith NArith Lia Bool.
From Stdlib Require Import DecimalString.
From Stdlib.Strings Require Byte.
Import ListNotations.

Set Warnings "-register-all".

Local Open Scope string_scope.
Local Open Scope list_scope.

(* ===================================================================== *)
(** ** JavaScript values                                                 *)
(* ===================================================================== *)

(** Values that reach the library as data: what [JSON.parse] produces for a
    server payload, plus [undefined].  Numbers are modelled as integers
    (status codes, sizes); strings as sequences of 8-bit characters. *)
Inductive JsVal : Type :=
| VUndef
| VNull
| VBool (b : bool)
| VNum (n : Z)
| VStr (s : string)
| VArr (items : list JsVal)
| VObj (fields : list (string * JsVal)).

(** ToBoolean. *)
Definition truthy (v : JsVal) : bool :=
  match v with
  | VUndef | VNull => false
  | VBool b => b
  | VNum n => negb (n =? 0)%Z
  | VStr s => negb (s =? "")
  | VArr _ | VObj _ => true
  end.

(** [a || b]: the first operand when it is truthy, else the second. *)
Definition js_or (a b : JsVal) : JsVal := if truthy a then a else b.

Definition nullish (v : JsVal) : bool :=
  match v with
  | VUndef | VNull => true
  | _ => false
  end.

(** Own-property lookup in an object literal. *)
Fixpoint lookup (k : string) (fields : list (string * JsVal)) : option JsVal :=
  match fields with
  | [] => None
  | (k', v) :: rest => if k' =? k then Some v else lookup k rest
  end.

(** The property names [index.ts] reads from data values.  None of them
    names a built-in property of strings, numbers, booleans, arrays or
    plain objects, so a read on such a value is decided by own properties
    alone. *)
Inductive Key : Type :=
| Kfile | Kreferences
| Kdirect_link | Kdownload_link | Kbbcode | Khtml | Kmarkdown
| Kcode | Kmessage.

Definition key_name (k : Key) : string :=
  match k with
  | Kfile => "file"
  | Kreferences => "references"
  | Kdirect_link => "direct_link"
  | Kdownload_link => "download_link"
  | Kbbcode => "bbcode"
  | Khtml => "html"
  | Kmarkdown => "markdown"
  | Kcode => "code"
  | Kmessage => "message"
  end.

(* ===================================================================== *)
(** ** Thrown values and results                                         *)
(* ===================================================================== *)

(** The response object carried by an axios error. *)
Record AxiosResponse : Type := mkAxiosResponse {
  status : Z;
  data : JsVal
}.

(** Everything the library can catch.  [EAxios] is the only value for
    which [axios.isAxiosError] answers [true]. *)
Inductive Thrown : Type :=
| EAxios (code : option string) (message : string)
         (response : option AxiosResponse)
| ENative (name : string) (message : string)
| EImgfans (message : string) (statusCode : option Z) (response : JsVal)
           (cause : option Thrown).

Inductive Result (A : Type) : Type :=
| Ret (a : A)
| Throw (e : Thrown).
Arguments Ret {A} a.
Arguments Throw {A} e.

Definition TypeError (message : string) : Thrown := ENative "TypeError" message.

Definition is_TypeError (e : Thrown) : bool :=
  match e with
  | ENative name _ => name =? "TypeError"
  | _ => false
  end.

Definition is_ImgfansError (e : Thrown) : bool :=
  match e with
  | EImgfans _ _ _ _ => true
  | _ => false
  end.

Definition describe (v : JsVal) : string :=
  match v with
  | VNull => "null"
  | _ => "undefined"
  end.

(** [v.k]: a read on [undefined] or [null] throws a TypeError; a read on
    any other value yields the own property or [undefined]. *)
Definition prop (v : JsVal) (k : Key) : Result JsVal :=
  match v with
  | VUndef | VNull =>
      Throw (TypeError ("Cannot read properties of " ++ describe v
                        ++ " (reading '" ++ key_name k ++ "')"))
  | VObj fields =>
      match lookup (key_name k) fields with
      | Some x => Ret x
      | None => Ret VUndef
      end
  | _ => Ret VUndef
  end.

(** [v?.k]: [undefined] when [v] is nullish, else [v.k]. *)
Definition opt_prop (v : JsVal) (k : Key) : JsVal :=
  match v with
  | VObj fields =>
      match lookup (key_name k) fields with
      | Some x => x
      | None => VUndef
      end
  | _ => VUndef
  end.

(** ToString, as the [Error] constructor applies it to its argument.  A
    plain object converts through [Object.prototype.toString] unless an own
    data property shadows [toString], in which case no primitive can be
    obtained ([valueOf] returns the object itself, or is shadowed too). *)
Definition Z_to_string (n : Z) : string := NilZero.string_of_int (Z.to_int n).

Fixpoint join (parts : list string) : string :=
  match parts with
  | [] => ""
  | [p] => p
  | p :: rest => p ++ "," ++ join rest
  end.

Fixpoint sequence {A : Type} (l : list (Result A)) : Result (list A) :=
  match l with
  | [] => Ret []
  | Ret a :: rest =>
      match sequence rest with
      | Ret as_ => Ret (a :: as_)
      | Throw e => Throw e
      end
  | Throw e :: _ => Throw e
  end.

Fixpoint ToString (v : JsVal) : Result string :=
  match v with
  | VUndef => Ret "undefined"
  | VNull => Ret "null"
  | VBool true => Ret "true"
  | VBool false => Ret "false"
  | VNum n => Ret (Z_to_string n)
  | VStr s => Ret s
  | VArr items =>
      match sequence (map (fun x => if nullish x then Ret "" else ToString x) items) with
      | Ret parts => Ret (join parts)
      | Throw e => Throw e
      end
  | VObj fields =>
      match lookup "toString" fields with
      | Some _ => Throw (TypeError "Cannot convert object to primitive value")
      | None => Ret "[object Object]"
      end
  end.

(* ===================================================================== *)
(** ** ImgfansError                                                      *)
(* ===================================================================== *)

(** An axios error as [getReadableErrorMessage] reads it. *)
Record AxiosError : Type := mkAxiosError {
  code : option string;
  message : string;
  response : option AxiosResponse
}.

Definition axios_thrown (error : AxiosError) : Thrown :=
  EAxios (code error) (message error) (response error).

(** [new ImgfansError(message, statusCode, response, cause)]: the built-in
    [Error] constructor stores ToString of a message that is not
    [undefined]. *)
Definition newImgfansError (msg : JsVal) (statusCode : option Z)
    (resp : JsVal) (cause : option Thrown) : Result Thrown :=
  match msg with
  | VUndef => Ret (EImgfans "" statusCode resp cause)
  | _ =>
      match ToString msg with
      | Ret m => Ret (EImgfans m statusCode resp cause)
      | Throw e => Throw e
      end
  end.

(** [new ImgfansError(message)] with a string literal. *)
Definition ImgfansError (msg : string) : Thrown := EImgfans msg None VUndef None.

(** [error.response?.status === n] *)
Definition status_is (error : AxiosError) (n : Z) : bool :=
  match response error with
  | Some r => (status r =? n)%Z
  | None => false
  end.

(** [error.code === c] *)
Definition code_is (error : AxiosError) (c : string) : bool :=
  match code error with
  | Some c' => c' =? c
  | None => false
  end.

(** [error.response?.status] *)
Definition response_status (error : AxiosError) : option Z :=
  option_map status (response error).

(** [error.response?.data] *)
Definition response_data (error : AxiosError) : JsVal :=
  match response error with
  | Some r => data r
  | None => VUndef
  end.

(** [error.response?.data?.message] *)
Definition response_data_message (error : AxiosError) : JsVal :=
  opt_prop (response_data error) Kmessage.

Definition MSG_TOO_LARGE : string :=
  "The image file is too large. Please try a smaller file.".
Definition MSG_UNSUPPORTED_TYPE : string :=
  "The file type is not supported. Please upload a valid image file.".
Definition MSG_BAD_TOKEN : string :=
  "Invalid or missing API token. Please check your credentials.".
Definition MSG_UNREACHABLE : string :=
  "Unable to connect to Imgfans server. Please check your internet connection.".
Definition MSG_UNKNOWN : string := "Upload failed for unknown reason".
Definition MSG_UNEXPECTED : string := "An unexpected error occurred".

Definition getReadableErrorMessage (error : AxiosError) : JsVal :=
  if status_is error 413 then VStr MSG_TOO_LARGE
  else if status_is error 415 then VStr MSG_UNSUPPORTED_TYPE
  else if status_is error 401 then VStr MSG_BAD_TOKEN
  else if code_is error "ECONNREFUSED" then VStr MSG_UNREACHABLE
  else js_or (js_or (response_data_message error) (VStr (message error)))
             (VStr MSG_UNKNOWN).

(** [error.message] of a caught value. *)
Definition thrown_message (error : Thrown) : string :=
  match error with
  | EAxios _ m _ => m
  | ENative _ m => m
  | EImgfans m _ _ _ => m
  end.

(** [axios.isAxiosError] *)
Definition isAxiosError (error : Thrown) : bool :=
  match error with
  | EAxios _ _ _ => true
  | _ => false
  end.

(** None of the three statuses [getReadableErrorMessage] singles out. *)
Definition unmapped_status (error : AxiosError) : bool :=
  negb (status_is error 413 || status_is error 415 || status_is error 401).

Definition fromError (error : Thrown) : Result Thrown :=
  match error with
  | EAxios c m r =>
      let a := mkAxiosError c m r in
      let statusCode := response_status a in
      let msg := getReadableErrorMessage a in
      newImgfansError msg statusCode (response_data a) (Some error)
  | _ =>
      newImgfansError (js_or (VStr (thrown_message error)) (VStr MSG_UNEXPECTED))
                      None VUndef (Some error)
  end.

(* ===================================================================== *)
(** ** Platform functions on strings and bytes                           *)
(* ===================================================================== *)

(** [String.prototype.startsWith] *)
Fixpoint startsWith (s p : string) : bool :=
  match p with
  | EmptyString => true
  | String a p' =>
      match s with
      | EmptyString => false
      | String b s' => (a =? b)%char && startsWith s' p'
      end
  end.

Fixpoint strip_prefix (p s : string) : option string :=
  match p, s with
  | EmptyString, _ => Some s
  | String a p', String b s' =>
      if (a =? b)%char then strip_prefix p' s' else None
  | String _ _, EmptyString => None
  end.

(** *** The regular expression [/^data:(.+);base64,(.+)$/]

    [.] matches every character but a line terminator and, without the
    [m] flag, [$] matches at the end of the input only: the input after
    [data:] is free of line terminators and splits as
    [g1 ++ ";base64," ++ g2] with both groups non-empty.  The first group
    is greedy, so among the possible splits the one with the longest [g1]
    is taken: the last occurrence of the literal that leaves a non-empty
    remainder. *)
Definition is_line_terminator (c : ascii) : bool :=
  ((c =? "010") || (c =? "013"))%char.

Fixpoint no_line_terminator (s : string) : bool :=
  match s with
  | EmptyString => true
  | String c s' => negb (is_line_terminator c) && no_line_terminator s'
  end.

Fixpoint split_last_base64 (r : string) : option (string * string) :=
  match r with
  | EmptyString => None
  | String c r' =>
      match split_last_base64 r' with
      | Some (g1, g2) => Some (String c g1, g2)
      | None =>
          match strip_prefix ";base64," r with
          | Some g2 => if g2 =? "" then None else Some ("", g2)
          | None => None
          end
      end
  end.

(** [input.match(/^data:(.+);base64,(.+)$/)]: the two captured groups. *)
Definition match_data_uri (input : string) : option (string * string) :=
  match strip_prefix "data:" input with
  | Some (String c r) =>
      if no_line_terminator (String c r) then
        match split_last_base64 r with
        | Some (g1, g2) => Some (String c g1, g2)
        | None => None
        end
      else None
  | _ => None
  end.

(** *** [path.basename] (POSIX)

    Trailing slashes are skipped, then the characters back to the previous
    slash are kept. *)
Definition is_slash (c : ascii) : bool := (c =? "/")%char.

Fixpoint drop_while (f : ascii -> bool) (l : list ascii) : list ascii :=
  match l with
  | [] => []
  | c :: rest => if f c then drop_while f rest else l
  end.

Fixpoint take_while (f : ascii -> bool) (l : list ascii) : list ascii :=
  match l with
  | [] => []
  | c :: rest => if f c then c :: take_while f rest else []
  end.

Definition basename (path : string) : string :=
  let backwards := drop_while is_slash (rev (list_ascii_of_string path)) in
  string_of_list_ascii
    (rev (take_while (fun c => negb (is_slash c)) backwards)).

(** *** Node's base64 codec

    [buf.toString('base64')] is the standard padded encoding.
    [Buffer.from(s, 'base64')] is lenient: it accepts the standard and the
    URL-safe alphabet, skips every character outside them, stops at the
    first [=], and turns a final group of two or three characters into one
    or two bytes. *)
Definition Buffer : Type := list Byte.byte.

Definition byte_of_N (n : N) : Byte.byte := byte_of_ascii (ascii_of_N n).

Definition base64_table : string :=
  "ABCDEFGHIJKLMNOPQRSTUVWXYZabcdefghijklmnopqrstuvwxyz0123456789+/".

Definition base64_char (n : N) : ascii :=
  match get (N.to_nat n) base64_table with
  | Some c => c
  | None => "="%char
  end.

Definition unbase64 (c : ascii) : option N :=
  let n := N_of_ascii c in
  (if (65 <=? n) && (n <=? 90) then Some (n - 65)
   else if (97 <=? n) && (n <=? 122) then Some (n - 71)
   else if (48 <=? n) && (n <=? 57) then Some (n + 4)
   else if (n =? 43) || (n =? 45) then Some 62
   else if (n =? 47) || (n =? 95) then Some 63
   else None)%N.

(** The four 6-bit groups of three bytes. *)
Definition enc1 (x : N) : N := N.shiftr x 2.
Definition enc2 (x y : N) : N := N.lor (N.shiftl (N.land x 3) 4) (N.shiftr y 4).
Definition enc3 (y z : N) : N := N.lor (N.shiftl (N.land y 15) 2) (N.shiftr z 6).
Definition enc4 (z : N) : N := N.land z 63.

(** The three bytes of four 6-bit groups. *)
Definition dec1 (a b : N) : N :=
  N.lor (N.shiftl (N.land a 63) 2) (N.shiftr (N.land b 48) 4).
Definition dec2 (b c : N) : N :=
  N.lor (N.shiftl (N.land b 15) 4) (N.shiftr (N.land c 60) 2).
Definition dec3 (c d : N) : N :=
  N.lor (N.shiftl (N.land c 3) 6) (N.land d 63).

Fixpoint base64_encode (b : Buffer) : string :=
  match b with
  | [] => ""
  | [x] =>
      let x := Byte.to_N x in
      String (base64_char (enc1 x)) (String (base64_char (enc2 x 0)) "==")
  | [x; y] =>
      let x := Byte.to_N x in
      let y := Byte.to_N y in
      String (base64_char (enc1 x)) (String (base64_char (enc2 x y))
        (String (base64_char (enc3 y 0)) "="))
  | x :: y :: z :: rest =>
      let x := Byte.to_N x in
      let y := Byte.to_N y in
      let z := Byte.to_N z in
      String (base64_char (enc1 x)) (String (base64_char (enc2 x y))
        (String (base64_char (enc3 y z)) (String (base64_char (enc4 z))
          (base64_encode rest))))
  end.

(** The legal characters before the first [=], as 6-bit values. *)
Fixpoint sextets (s : string) : list N :=
  match s with
  | EmptyString => []
  | String c s' =>
      match unbase64 c with
      | Some v => v :: sextets s'
      | None => if (c =? "=")%char then [] else sextets s'
      end
  end.

Fixpoint bytes_of_sextets (l : list N) : Buffer :=
  match l with
  | a :: b :: c :: d :: rest =>
      byte_of_N (dec1 a b) :: byte_of_N (dec2 b c) :: byte_of_N (dec3 c d)
        :: bytes_of_sextets rest
  | [a; b; c] => [byte_of_N (dec1 a b); byte_of_N (dec2 b c)]
  | [a; b] => [byte_of_N (dec1 a b)]
  | _ => []
  end.

Definition base64_decode (s : string) : Buffer := bytes_of_sextets (sextets s).

(** [Buffer.from(s, 'latin1')], to write buffers as text in examples. *)
Definition bytes_of_string (s : string) : Buffer :=
  map byte_of_ascii (list_ascii_of_string s).

(* ===================================================================== *)
(** ** The environment and the monad of library computations             *)
(* ===================================================================== *)

(** A readable stream: one opened by the library on a path, or one handed
    in by the caller. *)
Inductive Readable : Type :=
| FileStream (path : string)
| CallerStream (id : nat).

(** [Buffer | Readable | Blob] *)
Inductive ProcessedFile : Type :=
| PBuffer (bytes : Buffer)
| PReadable (r : Readable)
| PBlob (bytes : Buffer).

(** What [upload] can be handed at run time: the four members of
    [UploadInput], and anything else. *)
Inductive UploadInput : Type :=
| IString (s : string)
| IBuffer (bytes : Buffer)
| IBlob (bytes : Buffer)
| IReadable (r : Readable)
| IOther.

(** Calls that leave the process. *)
Inductive Event : Type :=
| HttpGet (url : string)
| HttpPost (url : string) (filename : string)
| ExistsSync (path : string)
| CreateReadStream (path : string).

(** The world the library runs in.  [http_get url] is the body
    [axios.get(url, {responseType: 'arraybuffer'})] resolves with, or the
    error it rejects with; [http_post] likewise for the upload request,
    before the response interceptor; [url_pathname s] is
    [new URL(s).pathname], [None] when the constructor throws. *)
Record Env : Type := mkEnv {
  http_get : string -> Result Buffer;
  http_post : string -> list (string * string) -> ProcessedFile -> string
              -> Result JsVal;
  existsSync : string -> bool;
  url_pathname : string -> option string
}.

Definition M (A : Type) : Type := Env -> list Event * Result A.

Definition ret {A : Type} (a : A) : M A := fun _ => ([], Ret a).

Definition throw {A : Type} (e : Thrown) : M A := fun _ => ([], Throw e).

Definition bind {A B : Type} (m : M A) (k : A -> M B) : M B :=
  fun env =>
    match m env with
    | (t, Ret a) => let (t', r) := k a env in (t ++ t', r)
    | (t, Throw e) => (t, Throw e)
    end.

(** [try { body } catch (error) { handler(error) }] *)
Definition try_catch {A : Type} (body : M A) (handler : Thrown -> M A) : M A :=
  fun env =>
    match body env with
    | (t, Ret a) => (t, Ret a)
    | (t, Throw e) => let (t', r) := handler e env in (t ++ t', r)
    end.

Declare Scope js_scope.
Delimit Scope js_scope with js.
Notation "x <- m ;; k" := (bind m (fun x => k))
  (at level 61, m at next level, right associativity) : js_scope.
Notation "' pat <- m ;; k" := (bind m (fun x => match x with pat => k end))
  (at level 61, pat pattern, m at next level, right associativity) : js_scope.
Local Open Scope js_scope.

Definition bindR {A B : Type} (r : Result A) (k : A -> Result B) : Result B :=
  match r with
  | Ret a => k a
  | Throw e => Throw e
  end.

(** [throw ImgfansError.fromError(error)] *)
Definition rethrow {A : Type} (error : Thrown) : M A :=
  match fromError error with
  | Ret e => throw e
  | Throw t => throw t
  end.

(** [axios.get(url, { responseType: 'arraybuffer' })] followed by
    [Buffer.from(response.data)]. *)
Definition axios_get (url : string) : M Buffer :=
  fun env => ([HttpGet url], http_get env url).

Definition fs_existsSync (path : string) : M bool :=
  fun env => ([ExistsSync path], Ret (existsSync env path)).

Definition fs_createReadStream (path : string) : M Readable :=
  fun _ => ([CreateReadStream path], Ret (FileStream path)).

(** [new URL(input).pathname] *)
Definition new_URL_pathname (input : string) : M string :=
  fun env =>
    match url_pathname env input with
    | Some p => ([], Ret p)
    | None => ([], Throw (TypeError "Invalid URL"))
    end.

(** [customFilename || fallback]: the fallback is evaluated only when the
    custom name is [undefined] or empty. *)
Definition or_else (customFilename : option string) (fallback : M string)
  : M string :=
  match customFilename with
  | Some name => if name =? "" then fallback else ret name
  | None => fallback
  end.

(* ===================================================================== *)
(** ** ImgfansClient                                                     *)
(* ===================================================================== *)

Record ImgfansConfig : Type := mkConfig {
  token : option string;
  baseURL : option string
}.

(** The axios instance held by a client. *)
Record ImgfansClient : Type := mkClient {
  client_baseURL : string;
  client_headers : list (string * string)
}.

Definition DEFAULT_BASE_URL : string := "https://imgfans.com/api/v1".

Definition MSG_TOKEN_REQUIRED : string :=
  "API token is required for initialization".
Definition MSG_INVALID_INPUT : string :=
  "Invalid input: must be a valid URL, file path, or base64 string".
Definition MSG_UNSUPPORTED_INPUT : string := "Unsupported input type".
Definition MSG_INVALID_RESPONSE : string :=
  "Invalid response format from server".

(** [!s] on an optional string. *)
Definition falsy_string (s : option string) : bool :=
  match s with
  | Some x => x =? ""
  | None => true
  end.

(** [`${s}`] on an optional string. *)
Definition template (s : option string) : string :=
  match s with
  | Some x => x
  | None => "undefined"
  end.

(** [s || fallback] on an optional string. *)
Definition string_or (s : option string) (fallback : string) : string :=
  if falsy_string s then fallback else template s.

(** The constructor builds the axios instance and installs the response
    interceptor (modelled in [client_post]); it sends nothing. *)
Definition constructor (config : ImgfansConfig) : M ImgfansClient :=
  if falsy_string (token config) then throw (ImgfansError MSG_TOKEN_REQUIRED)
  else
    ret {| client_baseURL := string_or (baseURL config) DEFAULT_BASE_URL;
           client_headers :=
             [("Authorization", ("Bearer " ++ template (token config))%string);
              ("Accept", "application/json")] |}.

Definition preprocessInput (input : UploadInput) (customFilename : option string)
  : M (ProcessedFile * string) :=
  try_catch
    (match input with
     | IString input =>
         if startsWith input "http://" || startsWith input "https://" then
           buffer <- axios_get input ;;
           detectedFilename <-
             or_else customFilename
               (pathname <- new_URL_pathname input ;; ret (basename pathname)) ;;
           ret (PBuffer buffer, detectedFilename)
         else
           match (if startsWith input "data:image/"
                  then match_data_uri input else None) with
           | Some (_, payload) =>
               detectedFilename <- or_else customFilename (ret "image.png") ;;
               ret (PBuffer (base64_decode payload), detectedFilename)
           | None =>
               found <- fs_existsSync input ;;
               if found then
                 stream <- fs_createReadStream input ;;
                 detectedFilename <- or_else customFilename (ret (basename input)) ;;
                 ret (PReadable stream, detectedFilename)
               else throw (ImgfansError MSG_INVALID_INPUT)
           end
     | IBuffer bytes =>
         detectedFilename <- or_else customFilename (ret "image.png") ;;
         ret (PBuffer bytes, detectedFilename)
     | IBlob bytes =>
         detectedFilename <- or_else customFilename (ret "image.png") ;;
         ret (PBlob bytes, detectedFilename)
     | IReadable r =>
         detectedFilename <- or_else customFilename (ret "image.png") ;;
         ret (PReadable r, detectedFilename)
     | IOther => throw (ImgfansError MSG_UNSUPPORTED_INPUT)
     end)
    rethrow.

(** [this.client.post('/upload', formData, ...)]: the request, then the
    response interceptor installed by the constructor, which lets a
    response through and rethrows an error through [fromError]. *)
Definition client_post (client : ImgfansClient) (file : ProcessedFile)
    (filename : string) : M JsVal :=
  try_catch
    (fun env =>
       let url := (client_baseURL client ++ "/upload")%string in
       ([HttpPost url filename],
        http_post env url (client_headers client) file filename))
    rethrow.

Definition performUpload (client : ImgfansClient) (file : ProcessedFile)
    (filename : string) : M JsVal :=
  try_catch (client_post client file filename) rethrow.

Definition upload (client : ImgfansClient) (input : UploadInput)
    (filename : option string) : M JsVal :=
  try_catch
    ('(processedFile, detectedFilename) <- preprocessInput input filename ;;
     performUpload client processedFile detectedFilename)
    rethrow.

(* ===================================================================== *)
(** ** Response accessors                                                *)
(* ===================================================================== *)

Declare Scope result_scope.
Delimit Scope result_scope with res.
Notation "x <- r ;; k" := (bindR r (fun x => k))
  (at level 61, r at next level, right associativity) : result_scope.

(** [response?.file?.references] *)
Definition file_references (response : JsVal) : JsVal :=
  opt_prop (opt_prop response Kfile) Kreferences.

Definition validateResponse (response : JsVal) : Result unit :=
  if negb (truthy (file_references response))
  then Throw (ImgfansError MSG_INVALID_RESPONSE)
  else Ret tt.

(** [response.file.references.<kind>.code] *)
Definition reference_code (response : JsVal) (kind : Key) : Result JsVal :=
  (file <- prop response Kfile ;;
   references <- prop file Kreferences ;;
   entry <- prop references kind ;;
   prop entry Kcode)%res.

Definition getDirectLink (response : JsVal) : Result JsVal :=
  (_ <- validateResponse response ;;
   reference_code response Kdirect_link)%res.

Definition getMarkdownCode (response : JsVal) : Result JsVal :=
  (_ <- validateResponse response ;;
   reference_code response Kmarkdown)%res.

Definition getHtmlCode (response : JsVal) : Result JsVal :=
  (_ <- validateResponse response ;;
   reference_code response Khtml)%res.

Definition getAllReferences (response : JsVal) : Result JsVal :=
  (_ <- validateResponse response ;;
   file <- prop response Kfile ;;
   refs <- prop file Kreferences ;;
   direct_link <- prop refs Kdirect_link ;;
   directLink <- prop direct_link Kcode ;;
   download_link <- prop refs Kdownload_link ;;
   downloadLink <- prop download_link Kcode ;;
   bbcode_entry <- prop refs Kbbcode ;;
   bbcode <- prop bbcode_entry Kcode ;;
   html_entry <- prop refs Khtml ;;
   html <- prop html_entry Kcode ;;
   markdown_entry <- prop refs Kmarkdown ;;
   markdown <- prop markdown_entry Kcode ;;
   Ret (VObj [("directLink", directLink);
              ("downloadLink", downloadLink);
              ("bbcode", bbcode);
              ("html", html);
              ("markdown", markdown)]))%res.

(** A response as the server documents it. *)
Definition entry (label code : string) : JsVal :=
  VObj [("label", VStr label); ("code", VStr code)].

Definition sample_references : JsVal :=
  VObj [("direct_link", entry "Direct Link" "https://imgfans.com/i/abc.png");
        ("download_link", entry "Download" "https://imgfans.com/d/abc.png");
        ("bbcode", entry "BBCode" "[img]https://imgfans.com/i/abc.png[/img]");
        ("html", entry "HTML" "<img src='https://imgfans.com/i/abc.png'>");
        ("markdown", entry "Markdown" "![](https://imgfans.com/i/abc.png)")].

Definition sample_response : JsVal :=
  VObj [("success", VBool true);
        ("file", VObj [("id", VStr "abc");
                       ("name", VStr "abc.png");
                       ("size", VNum 3);
                       ("references", sample_references);
                       ("expires_at", VNull)])].


(** A small world for running the library on concrete inputs: one remote
    image, one local file, a server that answers every upload. *)
Definition sample_env : Env :=
  {| http_get := fun url =>
       if url =? "https://example.com/a/cat.jpg"
       then Ret (bytes_of_string "JFIF")
       else Throw (EAxios (Some "ENOTFOUND") "getaddrinfo ENOTFOUND" None);
     http_post := fun _ _ _ _ => Ret sample_response;
     existsSync := fun path => path =? "/tmp/pics/cat.png";
     url_pathname := fun s =>
       if s =? "https://example.com/a/cat.jpg" then Some "/a/cat.jpg"
       else None |}.

(** A world whose server refuses every upload as too large. *)
Definition payload_too_large : JsVal :=
  VObj [("success", VBool false); ("message", VStr "Payload Too Large")].

Definition rejecting_env : Env :=
  {| http_get := http_get sample_env;
     http_post := fun _ _ _ _ =>
       Throw (EAxios (Some "ERR_BAD_REQUEST")
                     "Request failed with status code 413"
                     (Some (mkAxiosResponse 413 payload_too_large)));
     existsSync := existsSync sample_env;
     url_pathname := url_pathname sample_env |}.

Definition sample_client : ImgfansClient :=
  {| client_baseURL := DEFAULT_BASE_URL;
     client_headers := [("Authorization", "Bearer test-token");
                        ("Accept", "application/json")] |}.

(** The five reference kinds of the wire format. *)
Definition reference_kinds : list Key :=
  [Kdirect_link; Kdownload_link; Kbbcode; Khtml; Kmarkdown].

(** [response.file.references.<kind>], read leniently. *)
Definition reference_entry (response : JsVal) (kind : Key) : JsVal :=
  opt_prop (file_references response) kind.

(** A response is well formed when [file.references] passes validation and
    holds an entry for each of the five kinds. *)
Definition well_formed (response : JsVal) : bool :=
  truthy (file_references response)
  && forallb (fun kind => negb (nullish (reference_entry response kind)))
             reference_kinds.

(** The strings the first branch of [preprocessInput] takes. *)
Definition is_url (input : string) : bool :=
  startsWith input "http://" || startsWith input "https://".

(** The payload the second branch decodes, when it is taken. *)
Definition data_uri_payload (input : string) : option string :=
  if startsWith input "data:image/"
  then option_map snd (match_data_uri input)
  else None.

(** The InvalidInput failure as [preprocessInput] surfaces it: its own
    [catch] wraps the error it threw. *)
Definition InvalidInput : Thrown :=
  EImgfans MSG_INVALID_INPUT None VUndef (Some (ImgfansError MSG_INVALID_INPUT)).

(** A world where two files carry names that look like data URIs. *)
Definition data_named_files_env : Env :=
  {| http_get := http_get sample_env;
     http_post := http_post sample_env;
     existsSync := fun path =>
       (path =? "data:image/png;base64,QUJD")
       || (path =? "data:image/svg+xml,<svg/>");
     url_pathname := url_pathname sample_env |}.

(** [customFilename || fallback], spelled out. *)
Definition name_or (customFilename : option string) (fallback : string)
  : string :=
  match customFilename with
  | Some (String c rest) => String c rest
  | _ => fallback
  end.

(** Characters that cannot interfere with the data-URI expression: no line
    terminator and no semicolon. *)
Definition plain_char (c : ascii) : bool :=
  negb (c =? ";")%char && negb (is_line_terminator c).

Fixpoint plain (s : string) : bool :=
  match s with
  | EmptyString => true
  | String c s' => plain_char c && plain s'
  end.

(** The numbers below [n], for exhaustive checks over bytes and 6-bit
    groups. *)
Definition below (n : nat) : list N := map N.of_nat (seq 0 n).

(** A 6-bit group survives the trip through the alphabet, as a plain
    character. *)
Definition sextet_ok (v : N) : bool :=
  match unbase64 (base64_char v) with
  | Some v' => (v' =? v)%N
  | None => false
  end
  && plain_char (base64_char v) && negb (base64_char v =? "=")%char.

(** The failure for an input of no recognised type, as [preprocessInput]
    surfaces it through its own [catch]. *)
Definition UnsupportedInput : Thrown :=
  EImgfans MSG_UNSUPPORTED_INPUT None VUndef
           (Some (ImgfansError MSG_UNSUPPORTED_INPUT)).

(** What a [catch] block of the client builds from a caught value that is
    not an axios error: a fresh error with the caught message (or the
    unexpected-error string), no status, no payload, the caught value as
    cause. *)
Definition surfaced (e : Thrown) : Thrown :=
  EImgfans (if thrown_message e =? "" then MSG_UNEXPECTED else thrown_message e)
           None VUndef (Some e).

(** What [throw ImgfansError.fromError(error)] throws. *)
Definition caught (e : Thrown) : Thrown :=
  match fromError e with
  | Ret e' => e'
  | Throw t => t
  end.

Definition is_post (ev : Event) : bool :=
  match ev with
  | HttpPost _ _ => true
  | _ => false
  end.

(** The address a client posts to. *)
Definition upload_url (client : ImgfansClient) : string :=
  (client_baseURL client ++ "/upload")%string.

Definition has_slash (s : string) : bool :=
  existsb is_slash (list_ascii_of_string s).

(** Values that are neither arrays nor objects. *)
Definition is_primitive (v : JsVal) : bool :=
  match v with
  | VArr _ | VObj _ => false
  | _ => true
  end.

(** The inputs [preprocessInput] hands on as they are. *)
Definition passthrough (input : UploadInput) : option ProcessedFile :=
  match input with
  | IBuffer bytes => Some (PBuffer bytes)
  | IBlob bytes => Some (PBlob bytes)
  | IReadable r => Some (PReadable r)
  | IString _ | IOther => None
  end.

Definition is_string_input (input : UploadInput) : bool :=
  match input with
  | IString _ => true
  | _ => false
  end.


(* ===================================================================== *)
(** ** Running the model on concrete inputs                              *)
(* ===================================================================== *)

Example base64_decode_QUJD : base64_decode "QUJD" = bytes_of_string "ABC".
Proof. reflexivity. Qed.

Example base64_encode_ABC : base64_encode (bytes_of_string "ABC") = "QUJD".
Proof. reflexivity. Qed.

Example base64_decode_unpadded : base64_decode "QQ" = bytes_of_string "A".
Proof. reflexivity. Qed.

Example base64_encode_A : base64_encode (bytes_of_string "A") = "QQ==".
Proof. reflexivity. Qed.

Example match_data_uri_png :
  match_data_uri "data:image/png;base64,QUJD" = Some ("image/png", "QUJD").
Proof. reflexivity. Qed.

Example match_data_uri_greedy :
  match_data_uri "data:a;base64,b;base64,c" = Some ("a;base64,b", "c").
Proof. reflexivity. Qed.

Example match_data_uri_empty_payload :
  match_data_uri "data:image/png;base64," = None.
Proof. reflexivity. Qed.

Example match_data_uri_empty_mime :
  match_data_uri "data:;base64,QUJD" = None.
Proof. reflexivity. Qed.

Example match_data_uri_line_break :
  match_data_uri ("data:image/png;base64,QUJD" ++ String "010" "QUJD") = None.
Proof. reflexivity. Qed.

Example base64_decode_lenient :
  base64_decode "Q U-J_D!" = base64_decode "QU+J/D"
  /\ base64_decode "QQ==QUJD" = bytes_of_string "A".
Proof. split; reflexivity. Qed.

Example ToString_array :
  ToString (VArr [VNum 1; VNull; VArr [VStr "a"; VBool true]; VNum (-20)])
  = Ret "1,,a,true,-20".
Proof. reflexivity. Qed.

Example ToString_shadowed :
  ToString (VObj [("toString", VNum 1)])
  = Throw (TypeError "Cannot convert object to primitive value").
Proof. reflexivity. Qed.

Example basename_file : basename "/tmp/pics/cat.png" = "cat.png".
Proof. reflexivity. Qed.

Example basename_trailing : basename "/tmp/pics//" = "pics".
Proof. reflexivity. Qed.

Example basename_root : basename "/" = "".
Proof. reflexivity. Qed.

Example getDirectLink_sample :
  getDirectLink sample_response = Ret (VStr "https://imgfans.com/i/abc.png").
Proof. reflexivity. Qed.

Example getAllReferences_sample :
  getAllReferences sample_response =
  Ret (VObj [("directLink", VStr "https://imgfans.com/i/abc.png");
             ("downloadLink", VStr "https://imgfans.com/d/abc.png");
             ("bbcode", VStr "[img]https://imgfans.com/i/abc.png[/img]");
             ("html", VStr "<img src='https://imgfans.com/i/abc.png'>");
             ("markdown", VStr "![](https://imgfans.com/i/abc.png)")]).
Proof. reflexivity. Qed.

Example run_upload_data_uri :
  upload sample_client (IString "data:image/png;base64,QUJD") None sample_env
  = ([HttpPost "https://imgfans.com/api/v1/upload" "image.png"],
     Ret sample_response).
Proof. reflexivity. Qed.

Example run_data_uri :
  preprocessInput (IString "data:image/png;base64,QUJD") None sample_env
  = ([], Ret (PBuffer (bytes_of_string "ABC"), "image.png")).
Proof. reflexivity. Qed.

Example run_url :
  preprocessInput (IString "https://example.com/a/cat.jpg") None sample_env
  = ([HttpGet "https://example.com/a/cat.jpg"],
     Ret (PBuffer (bytes_of_string "JFIF"), "cat.jpg")).
Proof. reflexivity. Qed.

Example run_path :
  preprocessInput (IString "/tmp/pics/cat.png") None sample_env
  = ([ExistsSync "/tmp/pics/cat.png"; CreateReadStream "/tmp/pics/cat.png"],
     Ret (PReadable (FileStream "/tmp/pics/cat.png"), "cat.png")).
Proof. reflexivity. Qed.

Example run_garbage :
  preprocessInput (IString "not an image") None sample_env
  = ([ExistsSync "not an image"], Throw InvalidInput).
Proof. reflexivity. Qed.

Example constructor_test_token :
  constructor (mkConfig (Some "test-token") None) sample_env
  = ([], Ret sample_client).
Proof. reflexivity. Qed.

Example constructor_no_token :
  constructor (mkConfig None None) sample_env
  = ([], Throw (ImgfansError MSG_TOKEN_REQUIRED)).
Proof. reflexivity. Qed.

(* ===================================================================== *)
(** ** Response accessors: validation and field extraction               *)
(* ===================================================================== *)

Section Accessors.

Lemma opt_prop_nullish (v : JsVal) (k : Key) :
  nullish v = true -> opt_prop v k = VUndef.
Proof. destruct v; simpl; intros H; try discriminate; reflexivity. Qed.

Lemma prop_opt_prop (v : JsVal) (k : Key) :
  nullish v = false -> prop v k = Ret (opt_prop v k).
Proof.
  destruct v; simpl; intros H; try discriminate; try reflexivity.
  destruct (lookup (key_name k) fields); reflexivity.
Qed.

Lemma prop_nullish (v : JsVal) (k : Key) :
  nullish v = true -> exists e, prop v k = Throw e /\ is_TypeError e = true.
Proof.
  destruct v; simpl; intros H; try discriminate; eexists; split; reflexivity.
Qed.

Lemma truthy_not_nullish (v : JsVal) : truthy v = true -> nullish v = false.
Proof. destruct v; simpl; intros H; try discriminate; reflexivity. Qed.

Lemma truthy_opt_prop (v : JsVal) (k : Key) :
  truthy (opt_prop v k) = true -> nullish v = false.
Proof. destruct v; simpl; intros H; try discriminate; reflexivity. Qed.

(** Without [file.references] validation throws the library's error. *)
Lemma validateResponse_missing (response : JsVal) :
  nullish (file_references response) = true ->
  validateResponse response = Throw (ImgfansError MSG_INVALID_RESPONSE).
Proof.
  unfold validateResponse. intros H.
  destruct (file_references response); simpl in *; try discriminate; reflexivity.
Qed.

(** Past validation, the strict reads of [response.file.references]
    succeed and agree with the lenient ones. *)
Lemma validateResponse_passes (response : JsVal) :
  truthy (file_references response) = true ->
  validateResponse response = Ret tt
  /\ prop response Kfile = Ret (opt_prop response Kfile)
  /\ prop (opt_prop response Kfile) Kreferences = Ret (file_references response).
Proof.
  intros H. unfold validateResponse. rewrite H. simpl. split; [reflexivity|].
  pose proof (truthy_opt_prop _ _ H) as Hfile.
  assert (Hresp : nullish response = false).
  { destruct response; simpl in *; try discriminate; reflexivity. }
  split; apply prop_opt_prop; assumption.
Qed.

Lemma reference_code_present (response : JsVal) (kind : Key) :
  truthy (file_references response) = true ->
  nullish (reference_entry response kind) = false ->
  reference_code response kind
  = Ret (opt_prop (reference_entry response kind) Kcode).
Proof.
  intros Hrefs Hkind. unfold reference_code.
  destruct (validateResponse_passes _ Hrefs) as (_ & Hf & Hr).
  rewrite Hf. simpl. rewrite Hr. simpl.
  rewrite (prop_opt_prop (file_references response) kind)
    by (apply truthy_not_nullish; assumption).
  simpl. apply prop_opt_prop. exact Hkind.
Qed.

Lemma reference_code_absent (response : JsVal) (kind : Key) :
  truthy (file_references response) = true ->
  nullish (reference_entry response kind) = true ->
  exists e, reference_code response kind = Throw e /\ is_TypeError e = true.
Proof.
  intros Hrefs Hkind. unfold reference_code.
  destruct (validateResponse_passes _ Hrefs) as (_ & Hf & Hr).
  rewrite Hf. simpl. rewrite Hr. simpl.
  rewrite (prop_opt_prop (file_references response) kind)
    by (apply truthy_not_nullish; assumption).
  simpl. apply prop_nullish. exact Hkind.
Qed.

End Accessors.

(** C5.  A response that lacks [file.references] (the response itself, its
    [file] field or its [references] field is [undefined] or [null]) makes
    each of the four accessors throw the library's error with the
    invalid-response message: no other error, no value. *)
Theorem accessors_reject_missing_references (response : JsVal) :
  nullish response = true
  \/ nullish (opt_prop response Kfile) = true
  \/ nullish (file_references response) = true ->
  getDirectLink response = Throw (ImgfansError MSG_INVALID_RESPONSE)
  /\ getMarkdownCode response = Throw (ImgfansError MSG_INVALID_RESPONSE)
  /\ getHtmlCode response = Throw (ImgfansError MSG_INVALID_RESPONSE)
  /\ getAllReferences response = Throw (ImgfansError MSG_INVALID_RESPONSE).
Proof.
  intros H.
  assert (Hmissing : nullish (file_references response) = true).
  { destruct H as [H | [H | H]].
    - unfold file_references. rewrite (opt_prop_nullish response Kfile H).
      reflexivity.
    - unfold file_references. rewrite (opt_prop_nullish _ Kreferences H).
      reflexivity.
    - exact H. }
  unfold getDirectLink, getMarkdownCode, getHtmlCode, getAllReferences.
  rewrite (validateResponse_missing _ Hmissing). simpl.
  repeat split; reflexivity.
Qed.

Lemma accessors_reject_missing_references_witness :
  getDirectLink (VObj [("success", VBool true); ("file", VNull)])
    = Throw (ImgfansError MSG_INVALID_RESPONSE)
  /\ getAllReferences (VObj [("file", VObj [("id", VStr "abc")])])
    = Throw (ImgfansError MSG_INVALID_RESPONSE)
  /\ getHtmlCode VUndef = Throw (ImgfansError MSG_INVALID_RESPONSE).
Proof.
  split; [|split].
  - apply (accessors_reject_missing_references
             (VObj [("success", VBool true); ("file", VNull)])).
    right; left; reflexivity.
  - apply (accessors_reject_missing_references
             (VObj [("file", VObj [("id", VStr "abc")])])).
    right; right; reflexivity.
  - apply (accessors_reject_missing_references VUndef).
    left; reflexivity.
Defined.

(** C4.  On a well-formed response [getAllReferences] returns an object
    with exactly the keys directLink, downloadLink, bbcode, html and
    markdown, each holding the [code] field of the wire entry direct_link,
    download_link, bbcode, html and markdown respectively. *)
Theorem getAllReferences_well_formed (response : JsVal) :
  well_formed response = true ->
  getAllReferences response =
  Ret (VObj
    [("directLink", opt_prop (reference_entry response Kdirect_link) Kcode);
     ("downloadLink", opt_prop (reference_entry response Kdownload_link) Kcode);
     ("bbcode", opt_prop (reference_entry response Kbbcode) Kcode);
     ("html", opt_prop (reference_entry response Khtml) Kcode);
     ("markdown", opt_prop (reference_entry response Kmarkdown) Kcode)]).
Proof.
  unfold well_formed. intros H.
  apply andb_prop in H. destruct H as [Hrefs Hkinds].
  simpl in Hkinds.
  repeat (apply andb_prop in Hkinds; destruct Hkinds as [?Hk Hkinds]).
  repeat match goal with
         | Hn : negb _ = true |- _ => apply negb_true_iff in Hn
         end.
  destruct (validateResponse_passes _ Hrefs) as (Hv & Hf & Hr).
  pose proof (truthy_not_nullish _ Hrefs) as Hnn.
  unfold getAllReferences. rewrite Hv. simpl. rewrite Hf. simpl. rewrite Hr. simpl.
  unfold reference_entry in *.
  repeat (rewrite (prop_opt_prop (file_references response)) by exact Hnn; simpl;
          rewrite (prop_opt_prop (opt_prop (file_references response) _) Kcode)
            by assumption; simpl).
  reflexivity.
Qed.

Lemma getAllReferences_well_formed_witness :
  getAllReferences sample_response =
  Ret (VObj
    [("directLink", VStr "https://imgfans.com/i/abc.png");
     ("downloadLink", VStr "https://imgfans.com/d/abc.png");
     ("bbcode", VStr "[img]https://imgfans.com/i/abc.png[/img]");
     ("html", VStr "<img src='https://imgfans.com/i/abc.png'>");
     ("markdown", VStr "![](https://imgfans.com/i/abc.png)")]).
Proof.
  apply (getAllReferences_well_formed sample_response). reflexivity.
Defined.

(** A response whose [file.references] is present and empty. *)
Lemma getDirectLink_absent_kind_is_not_ImgfansError :
  let response := VObj [("file", VObj [("references", VObj [])])] in
  truthy (file_references response) = true
  /\ reference_entry response Kdirect_link = VUndef
  /\ getDirectLink response
     = Throw (TypeError "Cannot read properties of undefined (reading 'code')")
  /\ is_ImgfansError
       (TypeError "Cannot read properties of undefined (reading 'code')")
     = false.
Proof. repeat split; reflexivity. Qed.

(** C3, amended.  When [file.references] passes validation and lacks one of
    the five kinds, every accessor that reads the absent kind fails, and
    the failure is the TypeError of the property read on the absent entry:
    validation covers [file.references] only. *)
Theorem accessors_absent_kind_TypeError (response : JsVal) :
  truthy (file_references response) = true ->
  (nullish (reference_entry response Kdirect_link) = true ->
     exists e, getDirectLink response = Throw e /\ is_TypeError e = true)
  /\ (nullish (reference_entry response Kmarkdown) = true ->
     exists e, getMarkdownCode response = Throw e /\ is_TypeError e = true)
  /\ (nullish (reference_entry response Khtml) = true ->
     exists e, getHtmlCode response = Throw e /\ is_TypeError e = true)
  /\ (forallb (fun kind => negb (nullish (reference_entry response kind)))
              reference_kinds = false ->
     exists e, getAllReferences response = Throw e /\ is_TypeError e = true).
Proof.
  intros Hrefs.
  destruct (validateResponse_passes _ Hrefs) as (Hv & Hf & Hr).
  pose proof (truthy_not_nullish _ Hrefs) as Hnn.
  unfold getDirectLink, getMarkdownCode, getHtmlCode.
  rewrite Hv. simpl.
  split; [|split; [|split]];
    try (intros Hkind; apply reference_code_absent; assumption).
  intros Hsome. unfold getAllReferences. rewrite Hv. simpl.
  rewrite Hf. simpl. rewrite Hr. simpl.
  unfold reference_entry in Hsome. simpl in Hsome.
  repeat
    (rewrite (prop_opt_prop (file_references response)) by exact Hnn; simpl;
     match goal with
     | |- context [prop (opt_prop (file_references response) ?k) Kcode] =>
         let Hk := fresh "Hk" in
         destruct (nullish (opt_prop (file_references response) k)) eqn:Hk;
         [ destruct (prop_nullish _ Kcode Hk) as (e & He & Hty);
           rewrite He; simpl; exists e; split; [reflexivity | exact Hty]
         | rewrite (prop_opt_prop _ Kcode Hk); simpl ]
     end).
  simpl in Hsome. discriminate.
Qed.

Lemma accessors_absent_kind_TypeError_witness :
  (exists e, getDirectLink (VObj [("file", VObj [("references", VObj [])])])
             = Throw e /\ is_TypeError e = true)
  /\ (exists e, getAllReferences
                  (VObj [("file", VObj [("references",
                     VObj [("direct_link", entry "Direct Link" "u")])])])
                = Throw e /\ is_TypeError e = true).
Proof.
  split.
  - apply (accessors_absent_kind_TypeError
             (VObj [("file", VObj [("references", VObj [])])]));
      reflexivity.
  - apply (accessors_absent_kind_TypeError
             (VObj [("file", VObj [("references",
                VObj [("direct_link", entry "Direct Link" "u")])])]));
      reflexivity.
Defined.

(* ===================================================================== *)
(** ** Construction                                                      *)
(* ===================================================================== *)

(** C8.  With a missing or empty token the constructor throws the
    library's error before anything is sent (its trace of external calls
    is empty); with any non-empty token it returns a client, again
    without sending anything. *)
Theorem constructor_requires_token (config : ImgfansConfig) (env : Env) :
  (token config = None \/ token config = Some "" ->
     constructor config env = ([], Throw (ImgfansError MSG_TOKEN_REQUIRED)))
  /\ (forall t : string,
        token config = Some t -> (t =? "") = false ->
        constructor config env =
        ([], Ret {| client_baseURL := string_or (baseURL config) DEFAULT_BASE_URL;
                    client_headers :=
                      [("Authorization", ("Bearer " ++ t)%string);
                       ("Accept", "application/json")] |})).
Proof.
  unfold constructor. split.
  - intros [H | H]; rewrite H; reflexivity.
  - intros t Ht Hne. rewrite Ht. simpl. rewrite Hne. reflexivity.
Qed.

Lemma constructor_requires_token_witness :
  constructor (mkConfig (Some "") (Some "http://localhost:8080")) sample_env
    = ([], Throw (ImgfansError MSG_TOKEN_REQUIRED))
  /\ constructor (mkConfig None None) sample_env
    = ([], Throw (ImgfansError MSG_TOKEN_REQUIRED))
  /\ constructor (mkConfig (Some "test-token") None) sample_env
    = ([], Ret sample_client).
Proof.
  split; [|split].
  - apply (constructor_requires_token
             (mkConfig (Some "") (Some "http://localhost:8080")) sample_env).
    right; reflexivity.
  - apply (constructor_requires_token (mkConfig None None) sample_env).
    left; reflexivity.
  - apply (proj2 (constructor_requires_token
                    (mkConfig (Some "test-token") None) sample_env)
                 "test-token");
      reflexivity.
Defined.

(* ===================================================================== *)
(** ** Error translation                                                 *)
(* ===================================================================== *)

Section ErrorTranslation.

Variable error : AxiosError.

Lemma status_is_iff (n : Z) :
  status_is error n = true <-> response_status error = Some n.
Proof.
  unfold status_is, response_status.
  destruct (response error) as [r|]; simpl.
  - rewrite Z.eqb_eq. split; [intros ->; reflexivity | intros H; inversion H; reflexivity].
  - split; discriminate.
Qed.

Lemma status_is_other (n m : Z) :
  response_status error = Some m -> m <> n -> status_is error n = false.
Proof.
  intros Hs Hne. destruct (status_is error n) eqn:E; [|reflexivity].
  apply status_is_iff in E. congruence.
Qed.

Lemma js_or_truthy (a b : JsVal) :
  truthy b = true -> truthy (js_or a b) = true.
Proof. unfold js_or. destruct (truthy a) eqn:E; intros H; assumption. Qed.

(** The translated message is never [undefined], [null] or empty. *)
Lemma getReadableErrorMessage_truthy :
  truthy (getReadableErrorMessage error) = true.
Proof.
  unfold getReadableErrorMessage.
  repeat match goal with
         | |- context [if ?c then _ else _] => destruct c; [reflexivity|]
         end.
  apply js_or_truthy. reflexivity.
Qed.

(** What [fromError] builds from an axios error. *)
Lemma fromError_axios :
  fromError (axios_thrown error)
  = match ToString (getReadableErrorMessage error) with
    | Ret m => Ret (EImgfans m (response_status error) (response_data error)
                             (Some (axios_thrown error)))
    | Throw e => Throw e
    end.
Proof.
  pose proof getReadableErrorMessage_truthy as H.
  unfold fromError, axios_thrown, newImgfansError.
  destruct error as [c m r]. cbn [code message response] in *.
  destruct (getReadableErrorMessage {| code := c; message := m; response := r |});
    try reflexivity.
  simpl in H. discriminate.
Qed.

End ErrorTranslation.

(** What [fromError] builds from anything but an axios error. *)
Lemma fromError_other (e : Thrown) :
  isAxiosError e = false ->
  fromError e
  = Ret (EImgfans (if thrown_message e =? "" then MSG_UNEXPECTED
                   else thrown_message e)
                  None VUndef (Some e)).
Proof.
  intros Hne. destruct e as [c m r | n m | m sc resp cause]; simpl.
  - discriminate.
  - unfold js_or. simpl. destruct (m =? ""); reflexivity.
  - unfold js_or. simpl. destruct (m =? ""); reflexivity.
Qed.

(** A request that times out: there is no response, and the translated
    message is the axios error's own message, which is neither provided
    by the server nor the generic failure string. *)
Lemma fallback_uses_error_message :
  let error :=
    mkAxiosError (Some "ECONNABORTED") "timeout of 5000ms exceeded" None in
  response_status error = None
  /\ code_is error "ECONNREFUSED" = false
  /\ response_data_message error = VUndef
  /\ getReadableErrorMessage error = VStr "timeout of 5000ms exceeded"
  /\ getReadableErrorMessage error <> VStr MSG_UNKNOWN
  /\ getReadableErrorMessage error <> response_data_message error.
Proof.
  repeat split; try reflexivity; simpl; discriminate.
Qed.

(** C6, amended.  The message is a function of the failure: status 413,
    415 and 401 give the too-large, unsupported-type and bad-token
    messages; otherwise the code ECONNREFUSED gives the connectivity
    message; otherwise the message is the first non-empty one among the
    server's [data.message], the error's own message and the generic
    failure string.  The error built from an axios failure carries its
    status code, the server payload and the failure as cause; the error
    built from any other failure carries that failure as cause and its
    message, or the unexpected-error string when it has none. *)
Theorem error_translation (error : AxiosError) :
  (response_status error = Some 413%Z ->
     getReadableErrorMessage error = VStr MSG_TOO_LARGE)
  /\ (response_status error = Some 415%Z ->
     getReadableErrorMessage error = VStr MSG_UNSUPPORTED_TYPE)
  /\ (response_status error = Some 401%Z ->
     getReadableErrorMessage error = VStr MSG_BAD_TOKEN)
  /\ (unmapped_status error = true -> code error = Some "ECONNREFUSED" ->
     getReadableErrorMessage error = VStr MSG_UNREACHABLE)
  /\ (unmapped_status error = true -> code_is error "ECONNREFUSED" = false ->
     getReadableErrorMessage error =
     if truthy (response_data_message error) then response_data_message error
     else if message error =? "" then VStr MSG_UNKNOWN
     else VStr (message error))
  /\ (forall m : string,
        ToString (getReadableErrorMessage error) = Ret m ->
        fromError (axios_thrown error) =
        Ret (EImgfans m (response_status error) (response_data error)
                      (Some (axios_thrown error))))
  /\ (forall e : Thrown,
        isAxiosError e = false ->
        exists statusCode payload,
          fromError e =
          Ret (EImgfans (if thrown_message e =? "" then MSG_UNEXPECTED
                         else thrown_message e)
                        statusCode payload (Some e))).
Proof.
  assert (Hunmapped : unmapped_status error = true ->
            status_is error 413 = false /\ status_is error 415 = false
            /\ status_is error 401 = false).
  { unfold unmapped_status. intros H. apply negb_true_iff in H.
    apply orb_false_iff in H. destruct H as [H H401].
    apply orb_false_iff in H. destruct H as [H413 H415]. auto. }
  repeat split.
  - intros H. unfold getReadableErrorMessage.
    rewrite (proj2 (status_is_iff error 413) H). reflexivity.
  - intros H. unfold getReadableErrorMessage.
    rewrite (status_is_other error 413 415 H) by discriminate.
    rewrite (proj2 (status_is_iff error 415) H). reflexivity.
  - intros H. unfold getReadableErrorMessage.
    rewrite (status_is_other error 413 401 H) by discriminate.
    rewrite (status_is_other error 415 401 H) by discriminate.
    rewrite (proj2 (status_is_iff error 401) H). reflexivity.
  - intros Hu Hc. destruct (Hunmapped Hu) as (H1 & H2 & H3).
    unfold getReadableErrorMessage. rewrite H1, H2, H3.
    unfold code_is. rewrite Hc. rewrite String.eqb_refl. reflexivity.
  - intros Hu Hc. destruct (Hunmapped Hu) as (H1 & H2 & H3).
    unfold getReadableErrorMessage. rewrite H1, H2, H3, Hc.
    unfold js_or. destruct (truthy (response_data_message error)) eqn:Hd.
    + rewrite Hd. reflexivity.
    + simpl. destruct (message error =? ""); reflexivity.
  - intros m Hm. rewrite fromError_axios, Hm. reflexivity.
  - intros e He. exists None, VUndef. apply fromError_other. exact He.
Qed.

Lemma error_translation_witness :
  getReadableErrorMessage
    (mkAxiosError (Some "ERR_BAD_REQUEST") "Request failed with status code 413"
                  (Some (mkAxiosResponse 413 payload_too_large)))
    = VStr MSG_TOO_LARGE
  /\ getReadableErrorMessage
       (mkAxiosError (Some "ERR_BAD_REQUEST") "Request failed with status code 415"
                     (Some (mkAxiosResponse 415 VNull)))
     = VStr MSG_UNSUPPORTED_TYPE
  /\ getReadableErrorMessage
       (mkAxiosError (Some "ERR_BAD_REQUEST") "Request failed with status code 401"
                     (Some (mkAxiosResponse 401 VNull)))
     = VStr MSG_BAD_TOKEN
  /\ getReadableErrorMessage
       (mkAxiosError (Some "ECONNREFUSED") "connect ECONNREFUSED 127.0.0.1:443" None)
     = VStr MSG_UNREACHABLE
  /\ getReadableErrorMessage
       (mkAxiosError (Some "ERR_BAD_RESPONSE") "Request failed with status code 500"
                     (Some (mkAxiosResponse 500
                              (VObj [("message", VStr "Storage offline")]))))
     = VStr "Storage offline"
  /\ fromError
       (EAxios (Some "ERR_BAD_REQUEST") "Request failed with status code 413"
               (Some (mkAxiosResponse 413 payload_too_large)))
     = Ret (EImgfans MSG_TOO_LARGE (Some 413%Z) payload_too_large
              (Some (EAxios (Some "ERR_BAD_REQUEST")
                            "Request failed with status code 413"
                            (Some (mkAxiosResponse 413 payload_too_large)))))
  /\ (exists statusCode payload,
        fromError (TypeError "Invalid URL")
        = Ret (EImgfans "Invalid URL" statusCode payload
                 (Some (TypeError "Invalid URL")))).
Proof.
  pose (e413 := mkAxiosError (Some "ERR_BAD_REQUEST")
                  "Request failed with status code 413"
                  (Some (mkAxiosResponse 413 payload_too_large))).
  pose (e415 := mkAxiosError (Some "ERR_BAD_REQUEST")
                  "Request failed with status code 415"
                  (Some (mkAxiosResponse 415 VNull))).
  pose (e401 := mkAxiosError (Some "ERR_BAD_REQUEST")
                  "Request failed with status code 401"
                  (Some (mkAxiosResponse 401 VNull))).
  pose (eref := mkAxiosError (Some "ECONNREFUSED")
                  "connect ECONNREFUSED 127.0.0.1:443" None).
  pose (e500 := mkAxiosError (Some "ERR_BAD_RESPONSE")
                  "Request failed with status code 500"
                  (Some (mkAxiosResponse 500
                           (VObj [("message", VStr "Storage offline")])))).
  split; [|split; [|split; [|split; [|split; [|split]]]]].
  - apply (error_translation e413). reflexivity.
  - apply (error_translation e415). reflexivity.
  - apply (error_translation e401). reflexivity.
  - apply (error_translation eref); reflexivity.
  - apply (proj1 (proj2 (proj2 (proj2 (proj2 (error_translation e500))))));
      reflexivity.
  - apply (proj1 (proj2 (proj2 (proj2 (proj2 (proj2 (error_translation e413)))))));
      reflexivity.
  - apply (proj2 (proj2 (proj2 (proj2 (proj2 (proj2 (error_translation e413))))))
             (TypeError "Invalid URL")).
    reflexivity.
Defined.

(** The status code does not survive the nested handlers of [upload]: the
    interceptor's error carries it, and each enclosing [catch] wraps that
    error as an ordinary failure, keeping the message and the cause only. *)
Lemma upload_rewraps_translated_error :
  let failure := EAxios (Some "ERR_BAD_REQUEST")
                        "Request failed with status code 413"
                        (Some (mkAxiosResponse 413 payload_too_large)) in
  let translated := EImgfans MSG_TOO_LARGE (Some 413%Z) payload_too_large
                             (Some failure) in
  upload sample_client (IBuffer (bytes_of_string "ABC")) None rejecting_env
  = ([HttpPost "https://imgfans.com/api/v1/upload" "image.png"],
     Throw (EImgfans MSG_TOO_LARGE None VUndef
              (Some (EImgfans MSG_TOO_LARGE None VUndef (Some translated))))).
Proof. reflexivity. Qed.

(* ===================================================================== *)
(** ** Input normalisation                                               *)
(* ===================================================================== *)

Section Normalisation.

Variable env : Env.

Lemma or_else_run (customFilename : option string) (fallback : M string) :
  or_else customFilename fallback env
  = if falsy_string customFilename then fallback env
    else ([], Ret (template customFilename)).
Proof.
  unfold or_else. destruct customFilename as [name|]; simpl; [|reflexivity].
  destruct (name =? ""); reflexivity.
Qed.

Lemma or_else_ret (customFilename : option string) (fallback : string) :
  or_else customFilename (ret fallback) env
  = ([], Ret (string_or customFilename fallback)).
Proof.
  rewrite or_else_run. unfold string_or.
  destruct (falsy_string customFilename); reflexivity.
Qed.

Lemma rethrow_run {A : Type} (e : Thrown) :
  @rethrow A e env
  = ([], match fromError e with Ret e' => Throw e' | Throw t => Throw t end).
Proof. unfold rethrow. destruct (fromError e); reflexivity. Qed.

(** A data URI is not a URL. *)
Lemma data_image_not_url (input : string) :
  startsWith input "data:image/" = true -> is_url input = false.
Proof.
  unfold is_url. destruct input as [|c rest]; cbn [startsWith]; intros H.
  - discriminate.
  - destruct (Ascii.eqb_spec "d" c) as [<-|]; [reflexivity|].
    cbn [andb] in H. discriminate.
Qed.

Lemma data_uri_payload_not_url (input payload : string) :
  data_uri_payload input = Some payload -> is_url input = false.
Proof.
  unfold data_uri_payload.
  destruct (startsWith input "data:image/") eqn:E; [|discriminate].
  intros _. apply data_image_not_url. exact E.
Qed.

(** The first branch: the outcome is that of the fetch, then of the name. *)
Lemma preprocess_url (input : string) (customFilename : option string) :
  is_url input = true ->
  preprocessInput (IString input) customFilename env
  = ([HttpGet input],
     match http_get env input with
     | Ret body =>
         if falsy_string customFilename then
           match url_pathname env input with
           | Some pathname => Ret (PBuffer body, basename pathname)
           | None => Throw (EImgfans "Invalid URL" None VUndef
                              (Some (TypeError "Invalid URL")))
           end
         else Ret (PBuffer body, template customFilename)
     | Throw e =>
         match fromError e with
         | Ret e' => Throw e'
         | Throw t => Throw t
         end
     end).
Proof.
  unfold is_url. intros Hurl.
  unfold preprocessInput, try_catch, bind, axios_get. rewrite Hurl.
  destruct (http_get env input) as [body | e].
  - rewrite or_else_run. unfold new_URL_pathname, bind, ret.
    destruct (falsy_string customFilename); [|reflexivity].
    destruct (url_pathname env input); reflexivity.
  - rewrite rethrow_run. reflexivity.
Qed.

(** The second branch. *)
Lemma preprocess_data_uri_payload (input payload : string)
    (customFilename : option string) :
  data_uri_payload input = Some payload ->
  preprocessInput (IString input) customFilename env
  = ([], Ret (PBuffer (base64_decode payload),
              string_or customFilename "image.png")).
Proof.
  intros Hp. pose proof (data_uri_payload_not_url _ _ Hp) as Hurl.
  unfold is_url in Hurl. unfold data_uri_payload in Hp.
  unfold preprocessInput, try_catch, bind. rewrite Hurl.
  destruct (startsWith input "data:image/"); [|discriminate].
  destruct (match_data_uri input) as [[mime p]|]; [|discriminate].
  simpl in Hp. inversion Hp; subst p.
  rewrite or_else_ret. reflexivity.
Qed.

(** The third and fourth branches. *)
Lemma preprocess_path (input : string) (customFilename : option string) :
  is_url input = false ->
  data_uri_payload input = None ->
  preprocessInput (IString input) customFilename env
  = if existsSync env input
    then ([ExistsSync input; CreateReadStream input],
          Ret (PReadable (FileStream input),
               string_or customFilename (basename input)))
    else ([ExistsSync input], Throw InvalidInput).
Proof.
  unfold is_url, data_uri_payload. intros Hurl Hp.
  unfold preprocessInput, try_catch, bind, fs_existsSync. rewrite Hurl.
  assert (Hnone : (if startsWith input "data:image/"
                   then match_data_uri input else None) = None).
  { destruct (startsWith input "data:image/"); [|reflexivity].
    destruct (match_data_uri input); [discriminate | reflexivity]. }
  rewrite Hnone.
  destruct (existsSync env input).
  - unfold fs_createReadStream. rewrite or_else_ret. reflexivity.
  - reflexivity.
Qed.

(** Inputs that are not strings. *)
Lemma preprocess_buffer (bytes : Buffer) (customFilename : option string) :
  preprocessInput (IBuffer bytes) customFilename env
  = ([], Ret (PBuffer bytes, string_or customFilename "image.png")).
Proof.
  unfold preprocessInput, try_catch, bind. rewrite or_else_ret. reflexivity.
Qed.

Lemma preprocess_blob (bytes : Buffer) (customFilename : option string) :
  preprocessInput (IBlob bytes) customFilename env
  = ([], Ret (PBlob bytes, string_or customFilename "image.png")).
Proof.
  unfold preprocessInput, try_catch, bind. rewrite or_else_ret. reflexivity.
Qed.

Lemma preprocess_readable (r : Readable) (customFilename : option string) :
  preprocessInput (IReadable r) customFilename env
  = ([], Ret (PReadable r, string_or customFilename "image.png")).
Proof.
  unfold preprocessInput, try_catch, bind. rewrite or_else_ret. reflexivity.
Qed.

End Normalisation.

(** C1.  A string is classified by the first rule that matches.  One that
    starts with http:// or https:// is fetched: the only external call is
    the request, and the outcome is the fetched body or the failure of the
    fetch, whatever else the string contains.  Otherwise one that the
    base64 data-URI branch matches is decoded.  Otherwise one that names
    an existing file is opened as a stream.  Otherwise the operation fails
    with the invalid-input error. *)
Theorem string_classification (env : Env) (input : string)
    (customFilename : option string) :
  (is_url input = true ->
     preprocessInput (IString input) customFilename env
     = ([HttpGet input],
        match http_get env input with
        | Ret body =>
            if falsy_string customFilename then
              match url_pathname env input with
              | Some pathname => Ret (PBuffer body, basename pathname)
              | None => Throw (EImgfans "Invalid URL" None VUndef
                                 (Some (TypeError "Invalid URL")))
              end
            else Ret (PBuffer body, template customFilename)
        | Throw e =>
            match fromError e with
            | Ret e' => Throw e'
            | Throw t => Throw t
            end
        end))
  /\ (is_url input = false ->
      forall payload, data_uri_payload input = Some payload ->
      preprocessInput (IString input) customFilename env
      = ([], Ret (PBuffer (base64_decode payload),
                  string_or customFilename "image.png")))
  /\ (is_url input = false -> data_uri_payload input = None ->
      existsSync env input = true ->
      preprocessInput (IString input) customFilename env
      = ([ExistsSync input; CreateReadStream input],
         Ret (PReadable (FileStream input),
              string_or customFilename (basename input))))
  /\ (is_url input = false -> data_uri_payload input = None ->
      existsSync env input = false ->
      preprocessInput (IString input) customFilename env
      = ([ExistsSync input], Throw InvalidInput)).
Proof.
  split; [|split; [|split]].
  - apply preprocess_url.
  - intros _ payload Hp. apply preprocess_data_uri_payload. exact Hp.
  - intros Hurl Hp Hex. rewrite preprocess_path by assumption.
    rewrite Hex. reflexivity.
  - intros Hurl Hp Hex. rewrite preprocess_path by assumption.
    rewrite Hex. reflexivity.
Qed.

Lemma string_classification_witness :
  preprocessInput (IString "https://example.com/a/cat.jpg") None sample_env
    = ([HttpGet "https://example.com/a/cat.jpg"],
       Ret (PBuffer (bytes_of_string "JFIF"), "cat.jpg"))
  /\ preprocessInput (IString "data:image/png;base64,QUJD") None sample_env
    = ([], Ret (PBuffer (bytes_of_string "ABC"), "image.png"))
  /\ preprocessInput (IString "/tmp/pics/cat.png") None sample_env
    = ([ExistsSync "/tmp/pics/cat.png"; CreateReadStream "/tmp/pics/cat.png"],
       Ret (PReadable (FileStream "/tmp/pics/cat.png"), "cat.png"))
  /\ preprocessInput (IString "not an image") None sample_env
    = ([ExistsSync "not an image"], Throw InvalidInput).
Proof.
  split; [|split; [|split]].
  - apply (proj1 (string_classification sample_env
                    "https://example.com/a/cat.jpg" None)).
    reflexivity.
  - apply (fun Hurl Hpayload =>
             proj1 (proj2 (string_classification sample_env
                             "data:image/png;base64,QUJD" None))
                   Hurl "QUJD" Hpayload);
      reflexivity.
  - apply (proj1 (proj2 (proj2 (string_classification sample_env
                           "/tmp/pics/cat.png" None))));
      reflexivity.
  - apply (proj2 (proj2 (proj2 (string_classification sample_env
                           "not an image" None))));
      reflexivity.
Defined.

(** C10.  A string that starts with data:image/ and does not match the
    full data-URI expression is not decoded and raises no decoding error:
    it goes on to the file-existence test, and fails with the
    invalid-input error when no such file exists. *)
Theorem malformed_data_uri_falls_through (env : Env) (input : string)
    (customFilename : option string) :
  startsWith input "data:image/" = true ->
  match_data_uri input = None ->
  (existsSync env input = false ->
     preprocessInput (IString input) customFilename env
     = ([ExistsSync input], Throw InvalidInput))
  /\ (existsSync env input = true ->
     preprocessInput (IString input) customFilename env
     = ([ExistsSync input; CreateReadStream input],
        Ret (PReadable (FileStream input),
             string_or customFilename (basename input)))).
Proof.
  intros Hprefix Hmatch.
  assert (Hp : data_uri_payload input = None).
  { unfold data_uri_payload. rewrite Hprefix, Hmatch. reflexivity. }
  pose proof (data_image_not_url _ Hprefix) as Hurl.
  split; intros Hex; rewrite preprocess_path by assumption;
    rewrite Hex; reflexivity.
Qed.

Lemma malformed_data_uri_falls_through_witness :
  preprocessInput (IString "data:image/svg+xml,<svg/>") None sample_env
    = ([ExistsSync "data:image/svg+xml,<svg/>"], Throw InvalidInput)
  /\ preprocessInput (IString "data:image/svg+xml,<svg/>") None
       data_named_files_env
    = ([ExistsSync "data:image/svg+xml,<svg/>";
        CreateReadStream "data:image/svg+xml,<svg/>"],
       Ret (PReadable (FileStream "data:image/svg+xml,<svg/>"), ">")).
Proof.
  split.
  - apply (malformed_data_uri_falls_through sample_env
             "data:image/svg+xml,<svg/>" None);
      reflexivity.
  - apply (malformed_data_uri_falls_through data_named_files_env
             "data:image/svg+xml,<svg/>" None);
      reflexivity.
Defined.

(* ===================================================================== *)
(** ** The data-URI expression                                           *)
(* ===================================================================== *)

Section DataUri.

Lemma strip_prefix_sound (p s r : string) :
  strip_prefix p s = Some r -> s = (p ++ r)%string.
Proof.
  revert s. induction p as [|a p IH]; intros s H; simpl in *.
  - inversion H. reflexivity.
  - destruct s as [|b s]; [discriminate|].
    destruct (Ascii.eqb_spec a b) as [<-|]; [|discriminate].
    rewrite (IH s H). reflexivity.
Qed.

Lemma strip_prefix_complete (p r : string) :
  strip_prefix p (p ++ r) = Some r.
Proof.
  induction p as [|a p IH]; simpl; [reflexivity|].
  rewrite Ascii.eqb_refl. exact IH.
Qed.

Lemma split_last_base64_sound (r g1 g2 : string) :
  split_last_base64 r = Some (g1, g2) ->
  r = (g1 ++ ";base64," ++ g2)%string /\ g2 <> "".
Proof.
  revert g1. induction r as [|c r IH]; intros g1 H; [discriminate|].
  cbn [split_last_base64] in H.
  destruct (split_last_base64 r) as [[h1 h2]|].
  - inversion H; subst. destruct (IH h1 eq_refl) as [-> Hne].
    split; [reflexivity | exact Hne].
  - destruct (strip_prefix ";base64," (String c r)) as [rest|] eqn:Hs;
      [|discriminate].
    destruct (String.eqb_spec rest "") as [|Hne]; [discriminate|].
    inversion H; subst. apply strip_prefix_sound in Hs.
    split; [exact Hs | exact Hne].
Qed.

(** A match has the shape [data:<mime>;base64,<payload>], with neither
    part empty. *)
Lemma match_data_uri_sound (input mime payload : string) :
  match_data_uri input = Some (mime, payload) ->
  input = ("data:" ++ mime ++ ";base64," ++ payload)%string
  /\ mime <> "" /\ payload <> "".
Proof.
  unfold match_data_uri. intros H.
  destruct (strip_prefix "data:" input) as [[|c r]|] eqn:Hs; try discriminate.
  destruct (no_line_terminator (String c r)); [|discriminate].
  destruct (split_last_base64 r) as [[g1 g2]|] eqn:Hsplit; [|discriminate].
  inversion H; subst. apply strip_prefix_sound in Hs.
  destruct (split_last_base64_sound _ _ _ Hsplit) as [-> Hne].
  split; [exact Hs|]. split; [discriminate | exact Hne].
Qed.

Lemma plain_no_split (r : string) :
  plain r = true -> split_last_base64 r = None.
Proof.
  induction r as [|c r IH]; intros H; [reflexivity|].
  cbn [plain] in H. apply andb_prop in H. destruct H as [Hc Hr].
  cbn [split_last_base64]. rewrite (IH Hr).
  cbn [strip_prefix].
  unfold plain_char in Hc. apply andb_prop in Hc. destruct Hc as [Hc _].
  apply negb_true_iff in Hc. rewrite Ascii.eqb_sym, Hc. reflexivity.
Qed.

Lemma plain_no_line_terminator (s : string) :
  plain s = true -> no_line_terminator s = true.
Proof.
  induction s as [|c s IH]; intros H; [reflexivity|].
  cbn [plain] in H. apply andb_prop in H. destruct H as [Hc Hs].
  cbn [no_line_terminator]. rewrite (IH Hs).
  unfold plain_char in Hc. apply andb_prop in Hc. destruct Hc as [_ Hc].
  rewrite Hc. reflexivity.
Qed.

Lemma no_line_terminator_app (a b : string) :
  no_line_terminator (a ++ b) = no_line_terminator a && no_line_terminator b.
Proof.
  induction a as [|c a IH]; simpl; [reflexivity|].
  rewrite IH. rewrite andb_assoc. reflexivity.
Qed.

Lemma split_last_base64_plain (g1 g2 : string) :
  plain g2 = true -> g2 <> "" ->
  split_last_base64 (g1 ++ ";base64," ++ g2) = Some (g1, g2).
Proof.
  intros Hplain Hne. induction g1 as [|c g1 IH].
  - change ("" ++ ";base64," ++ g2)%string
      with (String ";" ("base64," ++ g2)%string).
    cbn [split_last_base64].
    rewrite plain_no_split by (simpl; exact Hplain).
    change (String ";" ("base64," ++ g2)%string) with (";base64," ++ g2)%string.
    rewrite strip_prefix_complete.
    destruct (String.eqb_spec g2 ""); [contradiction | reflexivity].
  - change ((String c g1) ++ ";base64," ++ g2)%string
      with (String c (g1 ++ ";base64," ++ g2)%string).
    cbn [split_last_base64]. rewrite IH. reflexivity.
Qed.

(** A plain, non-empty payload after the literal is the second group. *)
Lemma match_data_uri_plain (mime payload : string) :
  mime <> "" -> no_line_terminator mime = true ->
  payload <> "" -> plain payload = true ->
  match_data_uri ("data:" ++ mime ++ ";base64," ++ payload)
  = Some (mime, payload).
Proof.
  intros Hm Hlt Hp Hplain. unfold match_data_uri.
  rewrite strip_prefix_complete.
  pose proof (split_last_base64_plain) as Hsplit.
  set (tail := (";base64," ++ payload)%string) in *.
  assert (Htail : no_line_terminator tail = true).
  { unfold tail. rewrite no_line_terminator_app.
    rewrite (plain_no_line_terminator _ Hplain). reflexivity. }
  destruct mime as [|c mime]; [contradiction|].
  assert (Hall : no_line_terminator (String c (mime ++ tail)) = true).
  { change (String c (mime ++ tail)) with ((String c mime) ++ tail)%string.
    rewrite no_line_terminator_app, Hlt, Htail. reflexivity. }
  cbn [append]. rewrite Hall. subst tail.
  rewrite (Hsplit mime payload Hplain Hp). reflexivity.
Qed.

End DataUri.

(* ===================================================================== *)
(** ** The base64 codec                                                  *)
(* ===================================================================== *)

Section Base64.

Lemma below_complete (P : N -> bool) (n : nat) :
  forallb P (below n) = true ->
  forall x : N, (x < N.of_nat n)%N -> P x = true.
Proof.
  intros H x Hx. rewrite forallb_forall in H. apply H.
  unfold below. apply in_map_iff. exists (N.to_nat x). split.
  - apply N2Nat.id.
  - apply in_seq. lia.
Qed.

Lemma below2_complete (P : N -> N -> bool) (n m : nat) :
  forallb (fun x => forallb (P x) (below m)) (below n) = true ->
  forall x y : N, (x < N.of_nat n)%N -> (y < N.of_nat m)%N -> P x y = true.
Proof.
  intros H x y Hx Hy.
  apply (below_complete (P x) m); [|exact Hy].
  apply (below_complete (fun x => forallb (P x) (below m)) n H x Hx).
Qed.

Lemma byte_lt_256 (b : Byte.byte) : (Byte.to_N b < N.of_nat 256)%N.
Proof. pose proof (Byte.to_N_bounded b). lia. Qed.

Lemma byte_of_to_N (b : Byte.byte) : byte_of_N (Byte.to_N b) = b.
Proof. destruct b; reflexivity. Qed.

(** Each 6-bit group of an encoding is written as a plain alphabet
    character that reads back as the same group. *)
Lemma enc1_ok (x : Byte.byte) : sextet_ok (enc1 (Byte.to_N x)) = true.
Proof.
  apply (below_complete (fun x => sextet_ok (enc1 x)) 256);
    [vm_compute; reflexivity | apply byte_lt_256].
Qed.

Lemma enc2_ok (x y : N) :
  (x < 256)%N -> (y < 256)%N -> sextet_ok (enc2 x y) = true.
Proof.
  apply (below2_complete (fun x y => sextet_ok (enc2 x y)) 256 256).
  vm_compute; reflexivity.
Qed.

Lemma enc3_ok (y z : N) :
  (y < 256)%N -> (z < 256)%N -> sextet_ok (enc3 y z) = true.
Proof.
  apply (below2_complete (fun y z => sextet_ok (enc3 y z)) 256 256).
  vm_compute; reflexivity.
Qed.

Lemma enc4_ok (z : Byte.byte) : sextet_ok (enc4 (Byte.to_N z)) = true.
Proof.
  apply (below_complete (fun z => sextet_ok (enc4 z)) 256);
    [vm_compute; reflexivity | apply byte_lt_256].
Qed.

(** The bytes read back from the groups of an encoding. *)
Lemma dec1_enc (x y : N) :
  (x < 256)%N -> (y < 256)%N -> dec1 (enc1 x) (enc2 x y) = x.
Proof.
  intros Hx Hy. apply N.eqb_eq. revert x y Hx Hy.
  apply (below2_complete (fun x y => (dec1 (enc1 x) (enc2 x y) =? x)%N) 256 256).
  vm_compute; reflexivity.
Qed.

Lemma dec2_high (x y : N) :
  (x < 256)%N -> (y < 256)%N -> N.land (enc2 x y) 15 = N.shiftr y 4.
Proof.
  intros Hx Hy. apply N.eqb_eq. revert x y Hx Hy.
  apply (below2_complete
           (fun x y => (N.land (enc2 x y) 15 =? N.shiftr y 4)%N) 256 256).
  vm_compute; reflexivity.
Qed.

Lemma dec2_low (y z : N) :
  (y < 256)%N -> (z < 256)%N ->
  N.shiftr (N.land (enc3 y z) 60) 2 = N.land y 15.
Proof.
  intros Hy Hz. apply N.eqb_eq. revert y z Hy Hz.
  apply (below2_complete
           (fun y z => (N.shiftr (N.land (enc3 y z) 60) 2 =? N.land y 15)%N)
           256 256).
  vm_compute; reflexivity.
Qed.

Lemma nibbles (y : N) :
  (y < 256)%N -> N.lor (N.shiftl (N.shiftr y 4) 4) (N.land y 15) = y.
Proof.
  intros Hy. apply N.eqb_eq. revert y Hy.
  apply (below_complete
           (fun y => (N.lor (N.shiftl (N.shiftr y 4) 4) (N.land y 15) =? y)%N)
           256).
  vm_compute; reflexivity.
Qed.

Lemma dec2_enc (x y z : N) :
  (x < 256)%N -> (y < 256)%N -> (z < 256)%N ->
  dec2 (enc2 x y) (enc3 y z) = y.
Proof.
  intros Hx Hy Hz. unfold dec2.
  rewrite (dec2_high x y Hx Hy), (dec2_low y z Hy Hz).
  apply nibbles. exact Hy.
Qed.

Lemma dec3_enc (y z : N) :
  (y < 256)%N -> (z < 256)%N -> dec3 (enc3 y z) (enc4 z) = z.
Proof.
  intros Hy Hz. apply N.eqb_eq. revert y z Hy Hz.
  apply (below2_complete (fun y z => (dec3 (enc3 y z) (enc4 z) =? z)%N) 256 256).
  vm_compute; reflexivity.
Qed.

Lemma sextets_cons (v : N) (s : string) :
  sextet_ok v = true ->
  sextets (String (base64_char v) s) = v :: sextets s.
Proof.
  unfold sextet_ok. intros H.
  apply andb_prop in H. destruct H as [H _].
  apply andb_prop in H. destruct H as [H _].
  cbn [sextets]. destruct (unbase64 (base64_char v)) as [v'|]; [|discriminate].
  apply N.eqb_eq in H. subst v'. reflexivity.
Qed.

Lemma plain_cons (v : N) (s : string) :
  sextet_ok v = true -> plain (String (base64_char v) s) = plain s.
Proof.
  unfold sextet_ok. intros H.
  apply andb_prop in H. destruct H as [H _].
  apply andb_prop in H. destruct H as [_ H].
  cbn [plain]. rewrite H. reflexivity.
Qed.

(** Induction on a buffer three bytes at a time. *)
Lemma buffer_ind3 (P : Buffer -> Prop) :
  P [] ->
  (forall x, P [x]) ->
  (forall x y, P [x; y]) ->
  (forall x y z rest, P rest -> P (x :: y :: z :: rest)) ->
  forall b, P b.
Proof.
  intros H0 H1 H2 H3.
  fix IH 1. intros [|x [|y [|z rest]]].
  - exact H0.
  - apply H1.
  - apply H2.
  - apply H3. apply IH.
Qed.

(** Decoding an encoding gives the bytes back. *)
Lemma base64_decode_encode (b : Buffer) :
  base64_decode (base64_encode b) = b.
Proof.
  unfold base64_decode. induction b as [|x|x y|x y z rest IH] using buffer_ind3.
  - reflexivity.
  - pose proof (byte_lt_256 x) as Hx.
    cbn [base64_encode].
    rewrite sextets_cons by apply enc1_ok.
    rewrite sextets_cons by (apply enc2_ok; [exact Hx | reflexivity]).
    change (sextets "==") with (@nil N). cbn [bytes_of_sextets].
    rewrite dec1_enc by (try exact Hx; reflexivity).
    rewrite byte_of_to_N. reflexivity.
  - pose proof (byte_lt_256 x) as Hx. pose proof (byte_lt_256 y) as Hy.
    cbn [base64_encode].
    rewrite sextets_cons by apply enc1_ok.
    rewrite sextets_cons by (apply enc2_ok; assumption).
    rewrite sextets_cons by (apply enc3_ok; [exact Hy | reflexivity]).
    change (sextets "=") with (@nil N). cbn [bytes_of_sextets].
    rewrite dec1_enc by assumption.
    rewrite dec2_enc by (try assumption; reflexivity).
    rewrite !byte_of_to_N. reflexivity.
  - pose proof (byte_lt_256 x) as Hx. pose proof (byte_lt_256 y) as Hy.
    pose proof (byte_lt_256 z) as Hz.
    cbn [base64_encode].
    rewrite sextets_cons by apply enc1_ok.
    rewrite sextets_cons by (apply enc2_ok; assumption).
    rewrite sextets_cons by (apply enc3_ok; assumption).
    rewrite sextets_cons by apply enc4_ok.
    cbn [bytes_of_sextets]. rewrite IH.
    rewrite dec1_enc, dec2_enc, dec3_enc by assumption.
    rewrite !byte_of_to_N. reflexivity.
Qed.

(** An encoding is made of plain characters, and is empty only for the
    empty buffer. *)
Lemma base64_encode_plain (b : Buffer) : plain (base64_encode b) = true.
Proof.
  induction b as [|x|x y|x y z rest IH] using buffer_ind3.
  - reflexivity.
  - pose proof (byte_lt_256 x) as Hx. cbn [base64_encode].
    rewrite plain_cons by apply enc1_ok.
    rewrite plain_cons by (apply enc2_ok; [exact Hx | reflexivity]).
    reflexivity.
  - pose proof (byte_lt_256 x) as Hx. pose proof (byte_lt_256 y) as Hy.
    cbn [base64_encode].
    rewrite plain_cons by apply enc1_ok.
    rewrite plain_cons by (apply enc2_ok; assumption).
    rewrite plain_cons by (apply enc3_ok; [exact Hy | reflexivity]).
    reflexivity.
  - pose proof (byte_lt_256 x) as Hx. pose proof (byte_lt_256 y) as Hy.
    pose proof (byte_lt_256 z) as Hz.
    cbn [base64_encode].
    rewrite plain_cons by apply enc1_ok.
    rewrite plain_cons by (apply enc2_ok; assumption).
    rewrite plain_cons by (apply enc3_ok; assumption).
    rewrite plain_cons by apply enc4_ok.
    exact IH.
Qed.

Lemma base64_encode_nonempty (b : Buffer) :
  b <> [] -> base64_encode b <> "".
Proof.
  destruct b as [|x [|y [|z rest]]]; intros H; [contradiction| | |];
    cbn [base64_encode]; discriminate.
Qed.

End Base64.

(* ===================================================================== *)
(** ** Data URIs: decoding, round trip and file names                    *)
(* ===================================================================== *)

Lemma string_or_name_or (customFilename : option string) (fallback : string) :
  string_or customFilename fallback = name_or customFilename fallback.
Proof. destruct customFilename as [[|c rest]|]; reflexivity. Qed.

(** A data URI of type text/plain matches the expression and is not
    decoded: the branch is guarded by the prefix data:image/. *)
Lemma text_data_uri_not_decoded :
  let input := "data:text/plain;base64,QUJD" in
  match_data_uri input = Some ("text/plain", "QUJD")
  /\ existsSync sample_env input = false
  /\ preprocessInput (IString input) None sample_env
     = ([ExistsSync input], Throw InvalidInput)
  /\ snd (preprocessInput (IString input) None sample_env)
     <> Ret (PBuffer (base64_decode "QUJD"), "image.png").
Proof. repeat split; try reflexivity. discriminate. Qed.

(** C2, amended.  Every string that starts with data:image/ and matches
    [data:<mime>;base64,<payload>] is decoded: the result is the buffer of
    the decoded payload, and the file name is the caller's name when one
    is given and not empty, else exactly image.png. *)
Theorem image_data_uri_decoded (env : Env) (input mime payload : string)
    (customFilename : option string) :
  startsWith input "data:image/" = true ->
  match_data_uri input = Some (mime, payload) ->
  input = ("data:" ++ mime ++ ";base64," ++ payload)%string
  /\ preprocessInput (IString input) customFilename env
     = ([], Ret (PBuffer (base64_decode payload),
                 match customFilename with
                 | Some (String c rest) => String c rest
                 | _ => "image.png"
                 end)).
Proof.
  intros Hprefix Hmatch. split.
  - apply (match_data_uri_sound _ _ _ Hmatch).
  - rewrite (preprocess_data_uri_payload env input payload).
    + rewrite string_or_name_or. reflexivity.
    + unfold data_uri_payload. rewrite Hprefix, Hmatch. reflexivity.
Qed.

Lemma image_data_uri_decoded_witness :
  "data:image/png;base64,QUJD"
    = ("data:" ++ "image/png" ++ ";base64," ++ "QUJD")%string
  /\ preprocessInput (IString "data:image/png;base64,QUJD")
       (Some "custom-name.jpg") sample_env
     = ([], Ret (PBuffer (bytes_of_string "ABC"), "custom-name.jpg")).
Proof.
  apply (image_data_uri_decoded sample_env "data:image/png;base64,QUJD"
           "image/png" "QUJD" (Some "custom-name.jpg"));
    reflexivity.
Defined.

(** An unpadded payload is accepted by the decoder and is not what the
    encoder writes for the decoded bytes. *)
Lemma unpadded_payload_not_reproduced :
  let input := "data:image/png;base64,QQ" in
  match_data_uri input = Some ("image/png", "QQ")
  /\ preprocessInput (IString input) None sample_env
     = ([], Ret (PBuffer (bytes_of_string "A"), "image.png"))
  /\ base64_encode (base64_decode "QQ") = "QQ=="
  /\ base64_encode (base64_decode "QQ") <> "QQ".
Proof. repeat split; try reflexivity. discriminate. Qed.

(** C9, amended.  When the payload of [data:<mime>;base64,<payload>] is
    the padded base64 encoding of a non-empty byte sequence, the
    expression captures that payload, decoding it gives the bytes back,
    and encoding the decoded bytes reproduces the payload character for
    character; for an image type this is the buffer the normaliser
    returns. *)
Theorem encoded_payload_round_trip (env : Env) (mime : string)
    (bytes : Buffer) (customFilename : option string) :
  mime <> "" -> no_line_terminator mime = true -> bytes <> [] ->
  let payload := base64_encode bytes in
  let input := ("data:" ++ mime ++ ";base64," ++ payload)%string in
  match_data_uri input = Some (mime, payload)
  /\ base64_decode payload = bytes
  /\ base64_encode (base64_decode payload) = payload
  /\ (startsWith input "data:image/" = true ->
      exists name,
        preprocessInput (IString input) customFilename env
        = ([], Ret (PBuffer bytes, name))
        /\ base64_encode bytes = payload).
Proof.
  intros Hmime Hlt Hbytes payload input.
  assert (Hmatch : match_data_uri input = Some (mime, payload)).
  { apply match_data_uri_plain; try assumption.
    - apply base64_encode_nonempty. exact Hbytes.
    - apply base64_encode_plain. }
  split; [exact Hmatch|]. split; [apply base64_decode_encode|].
  split.
  - unfold payload. rewrite base64_decode_encode. reflexivity.
  - intros Hprefix.
    eexists. split; [|reflexivity].
    rewrite (preprocess_data_uri_payload env input payload).
    + unfold payload. rewrite base64_decode_encode. reflexivity.
    + unfold data_uri_payload. rewrite Hprefix, Hmatch. reflexivity.
Qed.

Lemma encoded_payload_round_trip_witness :
  match_data_uri "data:image/png;base64,QUJDRA=="
    = Some ("image/png", "QUJDRA==")
  /\ base64_decode "QUJDRA==" = bytes_of_string "ABCD"
  /\ base64_encode (base64_decode "QUJDRA==") = "QUJDRA=="
  /\ (startsWith "data:image/png;base64,QUJDRA==" "data:image/" = true ->
      exists name,
        preprocessInput (IString "data:image/png;base64,QUJDRA==") None
          sample_env
        = ([], Ret (PBuffer (bytes_of_string "ABCD"), name))
        /\ base64_encode (bytes_of_string "ABCD") = "QUJDRA==").
Proof.
  apply (encoded_payload_round_trip sample_env "image/png"
           (bytes_of_string "ABCD") None).
  - discriminate.
  - reflexivity.
  - discriminate.
Defined.

(* ===================================================================== *)
(** ** Derived file names                                                *)
(* ===================================================================== *)

(** An empty override is not used; and a string that names an existing
    file is not named after the file when an earlier rule takes it. *)
Lemma override_and_priority :
  preprocessInput (IBuffer (bytes_of_string "ABC")) (Some "") sample_env
    = ([], Ret (PBuffer (bytes_of_string "ABC"), "image.png"))
  /\ snd (preprocessInput (IBuffer (bytes_of_string "ABC")) (Some "") sample_env)
     <> Ret (PBuffer (bytes_of_string "ABC"), "")
  /\ existsSync data_named_files_env "data:image/png;base64,QUJD" = true
  /\ basename "data:image/png;base64,QUJD" = "png;base64,QUJD"
  /\ preprocessInput (IString "data:image/png;base64,QUJD") None
       data_named_files_env
     = ([], Ret (PBuffer (bytes_of_string "ABC"), "image.png"))
  /\ (forall file,
        snd (preprocessInput (IString "data:image/png;base64,QUJD") None
               data_named_files_env)
        <> Ret (file, basename "data:image/png;base64,QUJD")).
Proof.
  repeat split; try reflexivity.
  - discriminate.
  - intros file H. vm_compute in H. discriminate.
Qed.

(** C7, amended.  Without an override, or with an empty one: a string
    that reaches the file rule (no URL prefix, not decoded as a data URI)
    and names an existing file gets the base name of the path; a URL
    whose fetch succeeds gets the base name of the URL's path; a buffer
    gets exactly image.png.  A non-empty override is the file name in
    every branch that produces a file. *)
Theorem derived_filename (env : Env) :
  (forall (input : string) (customFilename : option string),
      falsy_string customFilename = true ->
      is_url input = false -> data_uri_payload input = None ->
      existsSync env input = true ->
      snd (preprocessInput (IString input) customFilename env)
      = Ret (PReadable (FileStream input), basename input))
  /\ (forall (input : string) (customFilename : option string)
             (body : Buffer) (pathname : string),
      falsy_string customFilename = true ->
      is_url input = true -> http_get env input = Ret body ->
      url_pathname env input = Some pathname ->
      snd (preprocessInput (IString input) customFilename env)
      = Ret (PBuffer body, basename pathname))
  /\ (forall (bytes : Buffer) (customFilename : option string),
      falsy_string customFilename = true ->
      snd (preprocessInput (IBuffer bytes) customFilename env)
      = Ret (PBuffer bytes, "image.png"))
  /\ (forall name : string,
      (name =? "") = false ->
      (forall input body,
          is_url input = true -> http_get env input = Ret body ->
          snd (preprocessInput (IString input) (Some name) env)
          = Ret (PBuffer body, name))
      /\ (forall input payload,
          data_uri_payload input = Some payload ->
          snd (preprocessInput (IString input) (Some name) env)
          = Ret (PBuffer (base64_decode payload), name))
      /\ (forall input,
          is_url input = false -> data_uri_payload input = None ->
          existsSync env input = true ->
          snd (preprocessInput (IString input) (Some name) env)
          = Ret (PReadable (FileStream input), name))
      /\ (forall bytes,
          snd (preprocessInput (IBuffer bytes) (Some name) env)
          = Ret (PBuffer bytes, name))
      /\ (forall bytes,
          snd (preprocessInput (IBlob bytes) (Some name) env)
          = Ret (PBlob bytes, name))
      /\ (forall r,
          snd (preprocessInput (IReadable r) (Some name) env)
          = Ret (PReadable r, name))).
Proof.
  assert (Hfalsy : forall h d, falsy_string h = true -> string_or h d = d).
  { intros h d H. unfold string_or. rewrite H. reflexivity. }
  assert (Hname : forall n d, (n =? "") = false -> string_or (Some n) d = n).
  { intros n d H. unfold string_or. simpl. rewrite H. reflexivity. }
  split; [|split; [|split]].
  - intros input h Hh Hurl Hp Hex.
    rewrite preprocess_path by assumption. rewrite Hex. simpl.
    rewrite Hfalsy by exact Hh. reflexivity.
  - intros input h body pathname Hh Hurl Hget Hpath.
    rewrite preprocess_url by assumption. simpl.
    rewrite Hget, Hh, Hpath. reflexivity.
  - intros bytes h Hh. rewrite preprocess_buffer. simpl.
    rewrite Hfalsy by exact Hh. reflexivity.
  - intros name Hne. repeat split.
    + intros input body Hurl Hget.
      rewrite preprocess_url by assumption. simpl.
      rewrite Hget, Hne. reflexivity.
    + intros input payload Hp.
      rewrite (preprocess_data_uri_payload env input payload) by assumption.
      simpl. rewrite Hname by exact Hne. reflexivity.
    + intros input Hurl Hp Hex.
      rewrite preprocess_path by assumption. rewrite Hex. simpl.
      rewrite Hname by exact Hne. reflexivity.
    + intros bytes. rewrite preprocess_buffer. simpl.
      rewrite Hname by exact Hne. reflexivity.
    + intros bytes. rewrite preprocess_blob. simpl.
      rewrite Hname by exact Hne. reflexivity.
    + intros r. rewrite preprocess_readable. simpl.
      rewrite Hname by exact Hne. reflexivity.
Qed.

Lemma derived_filename_witness :
  snd (preprocessInput (IString "/tmp/pics/cat.png") None sample_env)
    = Ret (PReadable (FileStream "/tmp/pics/cat.png"), "cat.png")
  /\ snd (preprocessInput (IString "https://example.com/a/cat.jpg") None
            sample_env)
    = Ret (PBuffer (bytes_of_string "JFIF"), "cat.jpg")
  /\ snd (preprocessInput (IBuffer (bytes_of_string "ABC")) None sample_env)
    = Ret (PBuffer (bytes_of_string "ABC"), "image.png")
  /\ snd (preprocessInput (IString "https://example.com/a/cat.jpg")
            (Some "custom-name.jpg") sample_env)
    = Ret (PBuffer (bytes_of_string "JFIF"), "custom-name.jpg")
  /\ snd (preprocessInput (IString "/tmp/pics/cat.png")
            (Some "custom-name.jpg") sample_env)
    = Ret (PReadable (FileStream "/tmp/pics/cat.png"), "custom-name.jpg").
Proof.
  pose proof (derived_filename sample_env) as (Hpath & Hurl & Hbuf & Hover).
  split; [|split; [|split; [|split]]].
  - apply (Hpath "/tmp/pics/cat.png" None); reflexivity.
  - apply (Hurl "https://example.com/a/cat.jpg" None
             (bytes_of_string "JFIF") "/a/cat.jpg");
      reflexivity.
  - apply (Hbuf (bytes_of_string "ABC") None); reflexivity.
  - apply (proj1 (Hover "custom-name.jpg" eq_refl)
             "https://example.com/a/cat.jpg" (bytes_of_string "JFIF"));
      reflexivity.
  - apply (proj1 (proj2 (proj2 (Hover "custom-name.jpg" eq_refl))));
      reflexivity.
Defined.

(* ===================================================================== *)
(** ** The upload pipeline                                               *)
(* ===================================================================== *)

Section Pipeline.

Variable env : Env.

(** A handler that rethrows adds no call of its own. *)
Lemma try_catch_rethrow_run {A : Type} (body : M A) :
  try_catch body rethrow env
  = match body env with
    | (t, Ret a) => (t, Ret a)
    | (t, Throw e) => (t, Throw (caught e))
    end.
Proof.
  unfold try_catch, caught. destruct (body env) as [t [a | e]]; [reflexivity|].
  rewrite rethrow_run. rewrite app_nil_r.
  destruct (fromError e); reflexivity.
Qed.

(** Nothing but a stringification failure escapes [fromError], and only
    for an axios error. *)
Lemma sequence_throw {A : Type} (l : list (Result A)) (t : Thrown) :
  sequence l = Throw t -> In (Throw t) l.
Proof.
  induction l as [|[a | e] l IH]; simpl; intros H.
  - discriminate.
  - destruct (sequence l); [discriminate|].
    inversion H; subst. right. apply IH. reflexivity.
  - inversion H; subst. left. reflexivity.
Qed.

Lemma ToString_throw :
  forall (v : JsVal) (t : Thrown),
    ToString v = Throw t -> is_TypeError t = true.
Proof.
  fix IH 1. intros v t H. destruct v as [| |b|n|s|items|fields]; simpl in H;
    try discriminate.
  - destruct b; discriminate.
  - destruct (sequence _) eqn:Hs in H; [discriminate|].
    inversion H; subst. apply sequence_throw in Hs.
    clear H. induction items as [|x items IHitems]; simpl in Hs.
    + contradiction.
    + destruct Hs as [Hx | Hin].
      * destruct (nullish x); [discriminate|]. apply (IH x t Hx).
      * apply IHitems. exact Hin.
  - destruct (lookup "toString" fields); [|discriminate].
    inversion H; subst. reflexivity.
Qed.

Lemma ToString_primitive (v : JsVal) :
  is_primitive v = true -> exists m, ToString v = Ret m.
Proof.
  destruct v as [| |b|n|s|items|fields]; simpl; intros H; try discriminate;
    try (eexists; reflexivity).
  destruct b; eexists; reflexivity.
Qed.

Lemma caught_not_axios (e : Thrown) : isAxiosError (caught e) = false.
Proof.
  unfold caught. destruct e as [c m r | n m | m sc resp cause].
  - change (EAxios c m r) with (axios_thrown (mkAxiosError c m r)).
    rewrite (fromError_axios (mkAxiosError c m r)).
    destruct (ToString _) eqn:Hs; [reflexivity|].
    apply ToString_throw in Hs. destruct e; try discriminate. reflexivity.
  - rewrite fromError_other by reflexivity. reflexivity.
  - rewrite fromError_other by reflexivity. reflexivity.
Qed.

Lemma caught_kind (e : Thrown) :
  is_ImgfansError (caught e) = true \/ is_TypeError (caught e) = true.
Proof.
  unfold caught. destruct e as [c m r | n m | m sc resp cause].
  - change (EAxios c m r) with (axios_thrown (mkAxiosError c m r)).
    rewrite (fromError_axios (mkAxiosError c m r)).
    destruct (ToString _) eqn:Hs; [left; reflexivity|].
    right. apply (ToString_throw _ _ Hs).
  - rewrite fromError_other by reflexivity. left; reflexivity.
  - rewrite fromError_other by reflexivity. left; reflexivity.
Qed.

Lemma caught_other (e : Thrown) :
  isAxiosError e = false -> caught e = surfaced e.
Proof.
  intros H. unfold caught. rewrite fromError_other by exact H. reflexivity.
Qed.

Lemma preprocess_other (customFilename : option string) :
  preprocessInput IOther customFilename env = ([], Throw UnsupportedInput).
Proof. reflexivity. Qed.

(** Whatever [preprocessInput] throws went through its [catch]. *)
Lemma preprocess_throws_caught (input : UploadInput)
    (customFilename : option string) (e : Thrown) :
  snd (preprocessInput input customFilename env) = Throw e ->
  exists e0, e = caught e0.
Proof.
  unfold preprocessInput. rewrite try_catch_rethrow_run.
  match goal with
  | |- context [match ?b with _ => _ end] =>
      destruct b as [t [a | e0]]
  end; simpl; intros H; [discriminate|].
  inversion H. exists e0. reflexivity.
Qed.

(** [preprocessInput] sends no upload request. *)
Lemma preprocess_trace_no_post (input : UploadInput)
    (customFilename : option string) :
  forallb (fun ev => negb (is_post ev))
          (fst (preprocessInput input customFilename env)) = true.
Proof.
  destruct input as [s | bytes | bytes | r |].
  - destruct (is_url s) eqn:Hurl.
    + rewrite preprocess_url by exact Hurl. reflexivity.
    + destruct (data_uri_payload s) as [payload|] eqn:Hp.
      * rewrite (preprocess_data_uri_payload env s payload) by exact Hp.
        reflexivity.
      * rewrite preprocess_path by assumption.
        destruct (existsSync env s); reflexivity.
  - rewrite preprocess_buffer. reflexivity.
  - rewrite preprocess_blob. reflexivity.
  - rewrite preprocess_readable. reflexivity.
  - reflexivity.
Qed.

Variable client : ImgfansClient.

Lemma performUpload_run (file : ProcessedFile) (filename : string) :
  performUpload client file filename env
  = ([HttpPost (upload_url client) filename],
     match http_post env (upload_url client) (client_headers client)
                     file filename with
     | Ret v => Ret v
     | Throw e => Throw (surfaced (caught e))
     end).
Proof.
  unfold performUpload, client_post. rewrite !try_catch_rethrow_run.
  fold (upload_url client).
  destruct (http_post env (upload_url client) (client_headers client)
                      file filename) as [v | e]; [reflexivity|].
  rewrite (caught_other (caught e)) by apply caught_not_axios. reflexivity.
Qed.

(** [upload], in terms of its two stages. *)
Lemma upload_run (input : UploadInput) (filename : option string) :
  upload client input filename env
  = match preprocessInput input filename env with
    | (t, Ret (file, name)) =>
        (t ++ [HttpPost (upload_url client) name],
         match http_post env (upload_url client) (client_headers client)
                         file name with
         | Ret v => Ret v
         | Throw e => Throw (surfaced (surfaced (caught e)))
         end)
    | (t, Throw e) => (t, Throw (surfaced e))
    end.
Proof.
  unfold upload. rewrite try_catch_rethrow_run. unfold bind.
  destruct (preprocessInput input filename env) as [t [[file name] | e]] eqn:Hpre.
  - rewrite performUpload_run.
    destruct (http_post env (upload_url client) (client_headers client)
                        file name) as [v | e]; [reflexivity|].
    rewrite caught_other by reflexivity. reflexivity.
  - assert (H : snd (preprocessInput input filename env) = Throw e)
      by (rewrite Hpre; reflexivity).
    destruct (preprocess_throws_caught _ _ _ H) as [e0 ->].
    rewrite caught_other by apply caught_not_axios. reflexivity.
Qed.

End Pipeline.



(** X2.  When normalisation fails nothing is sent to the server: [upload]
    makes the calls of the normalisation only, none of them an upload
    request, and throws the failure wrapped once more. *)
Theorem upload_rejects_before_posting (env : Env) (client : ImgfansClient)
    (input : UploadInput) (filename : option string)
    (t : list Event) (e : Thrown) :
  preprocessInput input filename env = (t, Throw e) ->
  upload client input filename env = (t, Throw (surfaced e))
  /\ existsb is_post (fst (upload client input filename env)) = false.
Proof.
  intros Hpre. rewrite upload_run, Hpre. split; [reflexivity|].
  pose proof (preprocess_trace_no_post env input filename) as Hno.
  rewrite Hpre in Hno. simpl in *. clear Hpre.
  induction t as [|ev t IH]; [reflexivity|].
  simpl in *. apply andb_prop in Hno. destruct Hno as [Hev Ht].
  apply negb_true_iff in Hev. rewrite Hev. simpl. apply IH. exact Ht.
Qed.

Lemma upload_rejects_before_posting_witness :
  upload sample_client (IString "not an image") None sample_env
    = ([ExistsSync "not an image"], Throw (surfaced InvalidInput))
  /\ existsb is_post
       (fst (upload sample_client (IString "not an image") None sample_env))
     = false.
Proof.
  apply (upload_rejects_before_posting sample_env sample_client
           (IString "not an image") None [ExistsSync "not an image"]
           InvalidInput).
  reflexivity.
Defined.






(** X6.  [preprocessInput] never lets an axios error through: what it
    throws is an ImgfansError, or the TypeError raised while building one
    from a server message that has no string form. *)
Theorem preprocess_failure_kind (env : Env) (input : UploadInput)
    (customFilename : option string) (e : Thrown) :
  snd (preprocessInput input customFilename env) = Throw e ->
  isAxiosError e = false
  /\ (is_ImgfansError e = true \/ is_TypeError e = true).
Proof.
  intros H. destruct (preprocess_throws_caught _ _ _ _ H) as [e0 ->].
  split; [apply caught_not_axios | apply caught_kind].
Qed.

Lemma preprocess_failure_kind_witness :
  isAxiosError
    (EImgfans "getaddrinfo ENOTFOUND" None VUndef
       (Some (EAxios (Some "ENOTFOUND") "getaddrinfo ENOTFOUND" None)))
  = false
  /\ (is_ImgfansError
        (EImgfans "getaddrinfo ENOTFOUND" None VUndef
           (Some (EAxios (Some "ENOTFOUND") "getaddrinfo ENOTFOUND" None)))
      = true
      \/ is_TypeError
           (EImgfans "getaddrinfo ENOTFOUND" None VUndef
              (Some (EAxios (Some "ENOTFOUND") "getaddrinfo ENOTFOUND" None)))
         = true).
Proof.
  apply (preprocess_failure_kind sample_env
           (IString "https://missing.example/x.png") None).
  reflexivity.
Defined.

(** X7.  An input that is not a string causes no external call: a buffer,
    a blob or a stream is handed on as it is, named by the override or
    image.png, and any other value fails with the unsupported-type
    error. *)
Theorem preprocess_non_string (env : Env) (input : UploadInput)
    (customFilename : option string) :
  is_string_input input = false ->
  preprocessInput input customFilename env
  = ([], match passthrough input with
         | Some file => Ret (file, string_or customFilename "image.png")
         | None => Throw UnsupportedInput
         end).
Proof.
  destruct input as [s | bytes | bytes | r |]; simpl; intros H;
    try discriminate.
  - apply preprocess_buffer.
  - apply preprocess_blob.
  - apply preprocess_readable.
  - apply preprocess_other.
Qed.

Lemma preprocess_non_string_witness :
  preprocessInput (IReadable (CallerStream 7)) (Some "scan.png") sample_env
    = ([], Ret (PReadable (CallerStream 7), "scan.png"))
  /\ preprocessInput IOther None sample_env = ([], Throw UnsupportedInput).
Proof.
  split.
  - apply (preprocess_non_string sample_env (IReadable (CallerStream 7))
             (Some "scan.png")).
    reflexivity.
  - apply (preprocess_non_string sample_env IOther None). reflexivity.
Defined.



(* ===================================================================== *)
(** ** More on the response accessors                                    *)
(* ===================================================================== *)

Section AccessorFacts.

Variable response : JsVal.

Lemma validateResponse_falsy :
  truthy (file_references response) = false ->
  validateResponse response = Throw (ImgfansError MSG_INVALID_RESPONSE).
Proof. unfold validateResponse. intros ->. reflexivity. Qed.

(** One kind: its code, or the TypeError of the read on an absent entry. *)
Lemma reference_code_cases (kind : Key) :
  truthy (file_references response) = true ->
  reference_code response kind
    = Ret (opt_prop (reference_entry response kind) Kcode)
  \/ (nullish (reference_entry response kind) = true
      /\ exists e, reference_code response kind = Throw e
                   /\ is_TypeError e = true).
Proof.
  intros Hrefs. destruct (nullish (reference_entry response kind)) eqn:Hk.
  - right. split; [reflexivity|]. apply reference_code_absent; assumption.
  - left. apply reference_code_present; assumption.
Qed.

(** [getAllReferences] reads the five codes in a fixed order. *)
Lemma getAllReferences_codes :
  truthy (file_references response) = true ->
  getAllReferences response
  = (directLink <- reference_code response Kdirect_link ;;
     downloadLink <- reference_code response Kdownload_link ;;
     bbcode <- reference_code response Kbbcode ;;
     html <- reference_code response Khtml ;;
     markdown <- reference_code response Kmarkdown ;;
     Ret (VObj [("directLink", directLink);
                ("downloadLink", downloadLink);
                ("bbcode", bbcode);
                ("html", html);
                ("markdown", markdown)]))%res.
Proof.
  intros Hrefs.
  destruct (validateResponse_passes _ Hrefs) as (Hv & Hf & Hr).
  unfold getAllReferences, reference_code.
  rewrite Hv, Hf. simpl. rewrite Hr. simpl.
  repeat match goal with
         | |- context [bindR (prop ?a ?k) _] =>
             destruct (prop a k); simpl; try reflexivity
         end.
Qed.

End AccessorFacts.

(** X9.  Validation looks at the truth value of [file.references] only.
    When it is falsy (absent, null, or an empty string, zero or false),
    the four accessors throw the invalid-response error; when it is
    truthy, none of them throws that error: each returns a value or fails
    with the TypeError of a property read. *)
Theorem accessors_validation (response : JsVal) :
  (truthy (file_references response) = false ->
     getDirectLink response = Throw (ImgfansError MSG_INVALID_RESPONSE)
     /\ getMarkdownCode response = Throw (ImgfansError MSG_INVALID_RESPONSE)
     /\ getHtmlCode response = Throw (ImgfansError MSG_INVALID_RESPONSE)
     /\ getAllReferences response = Throw (ImgfansError MSG_INVALID_RESPONSE))
  /\ (truthy (file_references response) = true ->
      forall e : Thrown,
        getDirectLink response = Throw e
        \/ getMarkdownCode response = Throw e
        \/ getHtmlCode response = Throw e
        \/ getAllReferences response = Throw e ->
        is_TypeError e = true).
Proof.
  split.
  - intros H. unfold getDirectLink, getMarkdownCode, getHtmlCode,
      getAllReferences.
    rewrite (validateResponse_falsy _ H). simpl. repeat split; reflexivity.
  - intros Hrefs e.
    assert (Hone : forall kind, reference_code response kind = Throw e ->
                                is_TypeError e = true).
    { intros kind Hk.
      destruct (reference_code_cases response kind Hrefs)
        as [Hok | (_ & e' & He' & Hty)].
      - rewrite Hok in Hk. discriminate.
      - rewrite He' in Hk. inversion Hk; subst. exact Hty. }
    destruct (validateResponse_passes _ Hrefs) as (Hv & _).
    unfold getDirectLink, getMarkdownCode, getHtmlCode.
    rewrite Hv. simpl.
    intros [H | [H | [H | H]]]; try (eapply Hone; exact H).
    rewrite getAllReferences_codes in H by exact Hrefs.
    repeat match type of H with
           | context [bindR (reference_code response ?k) _] =>
               let E := fresh "E" in
               destruct (reference_code response k) eqn:E; simpl in H;
               [ | inversion H; subst; eapply Hone; exact E ]
           end.
    discriminate.
Qed.

Lemma accessors_validation_witness :
  getMarkdownCode (VObj [("file", VObj [("references", VStr "")])])
    = Throw (ImgfansError MSG_INVALID_RESPONSE)
  /\ is_TypeError
       (TypeError "Cannot read properties of undefined (reading 'code')")
     = true.
Proof.
  split.
  - apply (accessors_validation
             (VObj [("file", VObj [("references", VStr "")])])).
    reflexivity.
  - apply (proj2 (accessors_validation
                    (VObj [("file", VObj [("references", VNum 1)])]))
                 eq_refl).
    left. reflexivity.
Defined.

(** X10.  Whenever [getAllReferences] returns, the three single accessors
    return as well, and their results are the entries directLink,
    markdown and html of the returned object. *)
Theorem accessors_agree (response : JsVal) (fields : list (string * JsVal)) :
  getAllReferences response = Ret (VObj fields) ->
  (exists v, getDirectLink response = Ret v
             /\ lookup "directLink" fields = Some v)
  /\ (exists v, getMarkdownCode response = Ret v
                /\ lookup "markdown" fields = Some v)
  /\ (exists v, getHtmlCode response = Ret v
                /\ lookup "html" fields = Some v).
Proof.
  intros H.
  destruct (truthy (file_references response)) eqn:Hrefs.
  2:{ unfold getAllReferences in H.
      rewrite (validateResponse_falsy _ Hrefs) in H. discriminate. }
  destruct (validateResponse_passes _ Hrefs) as (Hv & _).
  rewrite getAllReferences_codes in H by exact Hrefs.
  unfold getDirectLink, getMarkdownCode, getHtmlCode. rewrite Hv. simpl.
  destruct (reference_code response Kdirect_link) as [d|]; [|discriminate].
  destruct (reference_code response Kdownload_link) as [dl|]; [|discriminate].
  destruct (reference_code response Kbbcode) as [b|]; [|discriminate].
  destruct (reference_code response Khtml) as [h|]; [|discriminate].
  destruct (reference_code response Kmarkdown) as [md|]; [|discriminate].
  simpl in H. inversion H; subst.
  repeat split; eexists; split; reflexivity.
Qed.

Lemma accessors_agree_witness :
  (exists v, getDirectLink sample_response = Ret v
             /\ lookup "directLink"
                  [("directLink", VStr "https://imgfans.com/i/abc.png");
                   ("downloadLink", VStr "https://imgfans.com/d/abc.png");
                   ("bbcode", VStr "[img]https://imgfans.com/i/abc.png[/img]");
                   ("html", VStr "<img src='https://imgfans.com/i/abc.png'>");
                   ("markdown", VStr "![](https://imgfans.com/i/abc.png)")]
                = Some v)
  /\ (exists v, getMarkdownCode sample_response = Ret v
                /\ lookup "markdown"
                  [("directLink", VStr "https://imgfans.com/i/abc.png");
                   ("downloadLink", VStr "https://imgfans.com/d/abc.png");
                   ("bbcode", VStr "[img]https://imgfans.com/i/abc.png[/img]");
                   ("html", VStr "<img src='https://imgfans.com/i/abc.png'>");
                   ("markdown", VStr "![](https://imgfans.com/i/abc.png)")]
                = Some v)
  /\ (exists v, getHtmlCode sample_response = Ret v
                /\ lookup "html"
                  [("directLink", VStr "https://imgfans.com/i/abc.png");
                   ("downloadLink", VStr "https://imgfans.com/d/abc.png");
                   ("bbcode", VStr "[img]https://imgfans.com/i/abc.png[/img]");
                   ("html", VStr "<img src='https://imgfans.com/i/abc.png'>");
                   ("markdown", VStr "![](https://imgfans.com/i/abc.png)")]
                = Some v).
Proof.
  apply (accessors_agree sample_response). reflexivity.
Defined.

(** X11.  A single accessor depends on its own entry only: when
    [file.references] passes validation and holds the entry, the accessor
    returns the entry's [code] ([undefined] when the entry has none),
    whether or not the other kinds are there. *)
Theorem single_accessor_own_entry (response : JsVal) :
  truthy (file_references response) = true ->
  (nullish (reference_entry response Kdirect_link) = false ->
     getDirectLink response
     = Ret (opt_prop (reference_entry response Kdirect_link) Kcode))
  /\ (nullish (reference_entry response Kmarkdown) = false ->
     getMarkdownCode response
     = Ret (opt_prop (reference_entry response Kmarkdown) Kcode))
  /\ (nullish (reference_entry response Khtml) = false ->
     getHtmlCode response
     = Ret (opt_prop (reference_entry response Khtml) Kcode)).
Proof.
  intros Hrefs. destruct (validateResponse_passes _ Hrefs) as (Hv & _).
  unfold getDirectLink, getMarkdownCode, getHtmlCode. rewrite Hv. simpl.
  repeat split; intros Hk; apply reference_code_present; assumption.
Qed.

Lemma single_accessor_own_entry_witness :
  getMarkdownCode
    (VObj [("file", VObj [("references",
       VObj [("markdown", entry "Markdown" "![](u)")])])])
    = Ret (VStr "![](u)")
  /\ getHtmlCode
       (VObj [("file", VObj [("references",
          VObj [("html", VObj [("label", VStr "HTML")])])])])
     = Ret VUndef.
Proof.
  split.
  - apply (single_accessor_own_entry
             (VObj [("file", VObj [("references",
                VObj [("markdown", entry "Markdown" "![](u)")])])]));
      reflexivity.
  - apply (single_accessor_own_entry
             (VObj [("file", VObj [("references",
                VObj [("html", VObj [("label", VStr "HTML")])])])]));
      reflexivity.
Defined.

(* ===================================================================== *)
(** ** More on error translation                                         *)
(* ===================================================================== *)

(** X12.  Translating an axios error fails only on a server message that
    is an array or an object: when [data.message] is a string, a number,
    a boolean, null or absent, [fromError] returns an ImgfansError that
    carries the status code, the payload and the axios error as cause. *)
Theorem fromError_axios_returns (error : AxiosError) :
  is_primitive (response_data_message error) = true ->
  exists m : string,
    fromError (axios_thrown error)
    = Ret (EImgfans m (response_status error) (response_data error)
                    (Some (axios_thrown error))).
Proof.
  intros Hprim.
  assert (Hmsg : is_primitive (getReadableErrorMessage error) = true).
  { unfold getReadableErrorMessage.
    repeat match goal with
           | |- context [if ?c then VStr _ else _] => destruct c; [reflexivity|]
           end.
    unfold js_or.
    destruct (truthy (response_data_message error)) eqn:Ht.
    - rewrite Ht. exact Hprim.
    - destruct (truthy (VStr (message error))); reflexivity. }
  destruct (ToString_primitive _ Hmsg) as [m Hm].
  exists m. rewrite fromError_axios, Hm. reflexivity.
Qed.

Lemma fromError_axios_returns_witness :
  exists m : string,
    fromError (EAxios (Some "ERR_BAD_RESPONSE")
                 "Request failed with status code 500"
                 (Some (mkAxiosResponse 500 (VObj [("message", VNum 42)]))))
    = Ret (EImgfans m (Some 500%Z) (VObj [("message", VNum 42)])
             (Some (EAxios (Some "ERR_BAD_RESPONSE")
                      "Request failed with status code 500"
                      (Some (mkAxiosResponse 500
                               (VObj [("message", VNum 42)])))))).
Proof.
  apply (fromError_axios_returns
           (mkAxiosError (Some "ERR_BAD_RESPONSE")
              "Request failed with status code 500"
              (Some (mkAxiosResponse 500 (VObj [("message", VNum 42)]))))).
  reflexivity.
Defined.

(* ===================================================================== *)
(** ** More on the data-URI expression                                   *)
(* ===================================================================== *)

Section DataUriFacts.

Lemma append_inj_l (p a b : string) : (p ++ a = p ++ b)%string -> a = b.
Proof.
  induction p as [|c p IH]; simpl; intros H; [exact H|].
  inversion H. apply IH. assumption.
Qed.

Lemma length_append (a b : string) :
  String.length (a ++ b) = String.length a + String.length b.
Proof. induction a as [|c a IH]; simpl; [reflexivity | rewrite IH; reflexivity]. Qed.

(** Wherever the literal occurs before a non-empty remainder, a split is
    found. *)
Lemma split_last_base64_some (g1 g2 : string) :
  g2 <> "" ->
  exists h1 h2, split_last_base64 (g1 ++ ";base64," ++ g2) = Some (h1, h2).
Proof.
  intros Hne. induction g1 as [|c g1 IH].
  - change ("" ++ ";base64," ++ g2)%string
      with (String ";" ("base64," ++ g2)%string).
    cbn [split_last_base64].
    destruct (split_last_base64 ("base64," ++ g2)) as [[h1 h2]|].
    + eexists. eexists. reflexivity.
    + change (String ";" ("base64," ++ g2)%string)
        with (";base64," ++ g2)%string.
      rewrite strip_prefix_complete.
      destruct (String.eqb_spec g2 ""); [contradiction|].
      eexists. eexists. reflexivity.
  - change ((String c g1) ++ ";base64," ++ g2)%string
      with (String c (g1 ++ ";base64," ++ g2)%string).
    cbn [split_last_base64]. destruct IH as (h1 & h2 & ->).
    eexists. eexists. reflexivity.
Qed.

(** The split that is found has the longest first part. *)
Lemma split_last_base64_longest (r g1 g2 : string) :
  split_last_base64 r = Some (g1, g2) ->
  forall h1 h2, r = (h1 ++ ";base64," ++ h2)%string -> h2 <> "" ->
  String.length h1 <= String.length g1.
Proof.
  revert g1. induction r as [|c r IH]; intros g1 H h1 h2 Hr Hne;
    [discriminate|].
  cbn [split_last_base64] in H.
  destruct (split_last_base64 r) as [[k1 k2]|] eqn:Hs.
  - inversion H; subst. destruct h1 as [|c' h1]; [simpl; lia|].
    simpl in Hr. inversion Hr; subst.
    simpl. apply le_n_S. apply (IH k1 eq_refl h1 h2); [reflexivity | exact Hne].
  - destruct h1 as [|c' h1]; [simpl; lia|].
    simpl in Hr. inversion Hr; subst.
    destruct (split_last_base64_some h1 h2 Hne) as (x1 & x2 & Hx).
    assert (Hs' : split_last_base64 (h1 ++ ";base64," ++ h2) = None)
      by exact Hs.
    rewrite Hx in Hs'. discriminate.
Qed.

End DataUriFacts.

(** X13.  The strings the expression [/^data:(.+);base64,(.+)$/] matches
    are exactly those of the form [data:<mime>;base64,<payload>] with a
    non-empty mime part, a non-empty payload and no line terminator
    anywhere. *)
Theorem match_data_uri_language (input : string) :
  (exists mime payload, match_data_uri input = Some (mime, payload))
  <-> (exists mime payload,
         input = ("data:" ++ mime ++ ";base64," ++ payload)%string
         /\ mime <> "" /\ payload <> ""
         /\ no_line_terminator input = true).
Proof.
  split.
  - intros (mime & payload & H). exists mime, payload.
    destruct (match_data_uri_sound _ _ _ H) as (Hshape & Hm & Hp).
    repeat split; try assumption.
    unfold match_data_uri in H.
    destruct (strip_prefix "data:" input) as [[|c r]|] eqn:Hs; try discriminate.
    destruct (no_line_terminator (String c r)) eqn:Hlt; [|discriminate].
    apply strip_prefix_sound in Hs. rewrite Hs.
    rewrite no_line_terminator_app, Hlt. reflexivity.
  - intros (mime & payload & Hshape & Hm & Hp & Hlt). subst input.
    rewrite no_line_terminator_app in Hlt. apply andb_prop in Hlt.
    destruct Hlt as [_ Hlt].
    unfold match_data_uri. rewrite strip_prefix_complete.
    destruct mime as [|c mime]; [contradiction|].
    change ((String c mime) ++ ";base64," ++ payload)%string
      with (String c (mime ++ ";base64," ++ payload)%string) in *.
    cbv beta iota. rewrite Hlt.
    destruct (split_last_base64_some mime payload Hp) as (h1 & h2 & ->).
    eexists. eexists. reflexivity.
Qed.

Lemma match_data_uri_language_witness :
  exists mime payload,
    match_data_uri "data:image/gif;base64,R0lGODlh" = Some (mime, payload).
Proof.
  apply (proj2 (match_data_uri_language "data:image/gif;base64,R0lGODlh")).
  exists "image/gif", "R0lGODlh".
  repeat split; try reflexivity; discriminate.
Defined.

(** X14.  The first group is greedy: of all the ways to read the input
    as [data:<mime>;base64,<payload>], the match takes the one with the
    shortest payload, so what is decoded is what follows the last
    [;base64,]. *)
Theorem match_data_uri_shortest_payload (input mime payload mime' payload' : string) :
  match_data_uri input = Some (mime, payload) ->
  input = ("data:" ++ mime' ++ ";base64," ++ payload')%string ->
  mime' <> "" -> payload' <> "" ->
  String.length payload <= String.length payload'.
Proof.
  intros H Hshape' Hm' Hp'.
  destruct (match_data_uri_sound _ _ _ H) as (Hshape & _ & _).
  assert (Hlen : String.length mime' <= String.length mime).
  { unfold match_data_uri in H.
    destruct (strip_prefix "data:" input) as [[|c r]|] eqn:Hs; try discriminate.
    destruct (no_line_terminator (String c r)); [|discriminate].
    destruct (split_last_base64 r) as [[g1 g2]|] eqn:Hsplit; [|discriminate].
    inversion H; subst mime payload. clear H.
    apply strip_prefix_sound in Hs. rewrite Hs in Hshape'.
    apply append_inj_l in Hshape'.
    destruct mime' as [|c' m']; [contradiction|].
    simpl in Hshape'. inversion Hshape'; subst c' r.
    simpl. apply le_n_S.
    apply (split_last_base64_longest _ _ _ Hsplit m' payload' eq_refl Hp'). }
  assert (Htotal : String.length input = String.length input) by reflexivity.
  rewrite Hshape in Htotal at 1. rewrite Hshape' in Htotal at 1.
  rewrite !length_append in Htotal. simpl in Htotal. lia.
Qed.

Lemma match_data_uri_shortest_payload_witness :
  String.length "c" <= String.length "b;base64,c".
Proof.
  apply (match_data_uri_shortest_payload "data:a;base64,b;base64,c"
           "a;base64,b" "c" "a" "b;base64,c").
  - reflexivity.
  - reflexivity.
  - discriminate.
  - discriminate.
Defined.

(** X15.  No string is both a URL and a decodable data URI, so the order
    of the first two rules of [preprocessInput] never decides an
    outcome. *)
Theorem url_and_data_uri_disjoint (input : string) :
  is_url input = true -> data_uri_payload input = None.
Proof.
  intros Hurl. destruct (data_uri_payload input) as [payload|] eqn:Hp;
    [|reflexivity].
  pose proof (data_uri_payload_not_url input payload Hp) as Hno.
  rewrite Hurl in Hno. discriminate.
Qed.

Lemma url_and_data_uri_disjoint_witness :
  data_uri_payload "https://example.com/data:image/png;base64,QUJD" = None.
Proof.
  apply (url_and_data_uri_disjoint
           "https://example.com/data:image/png;base64,QUJD").
  reflexivity.
Defined.

(* ===================================================================== *)
(** ** More on derived file names                                        *)
(* ===================================================================== *)

Section BasenameFacts.

Lemma take_while_all (f : ascii -> bool) (l : list ascii) :
  forall x, In x (take_while f l) -> f x = true.
Proof.
  induction l as [|c l IH]; simpl; intros x H; [contradiction|].
  destruct (f c) eqn:E; [|contradiction].
  destruct H as [<- | H]; [exact E | apply IH; exact H].
Qed.

Lemma take_while_stop (f : ascii -> bool) (l1 l2 : list ascii) (c : ascii) :
  forallb f l1 = true -> f c = false ->
  take_while f (l1 ++ c :: l2) = l1.
Proof.
  intros H Hc. induction l1 as [|x l1 IH]; simpl in *.
  - rewrite Hc. reflexivity.
  - apply andb_prop in H. destruct H as [Hx H]. rewrite Hx, IH by exact H.
    reflexivity.
Qed.

Lemma list_ascii_of_string_app (a b : string) :
  list_ascii_of_string (a ++ b)
  = list_ascii_of_string a ++ list_ascii_of_string b.
Proof. induction a as [|c a IH]; simpl; [reflexivity | rewrite IH; reflexivity]. Qed.

(** A base name holds no slash. *)
Lemma basename_no_slash (path : string) : has_slash (basename path) = false.
Proof.
  unfold has_slash, basename. rewrite list_ascii_of_string_of_list_ascii.
  match goal with |- existsb _ ?l = false => destruct (existsb is_slash l) eqn:E end;
    [|reflexivity].
  apply existsb_exists in E. destruct E as (x & Hin & Hx).
  apply in_rev in Hin. apply take_while_all in Hin.
  rewrite Hx in Hin. discriminate.
Qed.

(** The base name of [dir/name] is [name]. *)
Lemma basename_join (dir name : string) :
  name <> "" -> has_slash name = false ->
  basename (dir ++ "/" ++ name) = name.
Proof.
  intros Hne Hno. unfold basename, has_slash in *.
  rewrite list_ascii_of_string_app.
  change (list_ascii_of_string ("/" ++ name))
    with ("/"%char :: list_ascii_of_string name).
  rewrite rev_app_distr. cbn [rev]. rewrite <- app_assoc. cbn [app].
  set (n := list_ascii_of_string name) in *.
  assert (Hall : forallb (fun c => negb (is_slash c)) (rev n) = true).
  { apply forallb_forall. intros x Hin. apply in_rev in Hin.
    destruct (is_slash x) eqn:Hx; [|reflexivity].
    assert (Hex : existsb is_slash n = true)
      by (apply existsb_exists; exists x; split; assumption).
    rewrite Hex in Hno. discriminate. }
  assert (Hn : rev n <> []).
  { intros Hrev. apply (f_equal (@rev ascii)) in Hrev.
    rewrite rev_involutive in Hrev. simpl in Hrev.
    apply Hne. rewrite <- (string_of_list_ascii_of_string name).
    fold n. rewrite Hrev. reflexivity. }
  destruct (rev n) as [|x l] eqn:Hrev; [contradiction|].
  cbn [app drop_while].
  assert (Hx : is_slash x = false).
  { simpl in Hall. apply andb_prop in Hall. destruct Hall as [Hx _].
    apply negb_true_iff in Hx. exact Hx. }
  rewrite Hx.
  change (x :: l ++ "/"%char :: rev (list_ascii_of_string dir))
    with ((x :: l) ++ "/"%char :: rev (list_ascii_of_string dir)).
  rewrite take_while_stop by (try exact Hall; reflexivity).
  rewrite <- Hrev, rev_involutive. unfold n.
  apply string_of_list_ascii_of_string.
Qed.

End BasenameFacts.

(** X16.  Without an override (or with an empty one) the detected file
    name never contains a slash, whatever the input: it is a base name or
    image.png. *)
Theorem detected_filename_no_slash (env : Env) (input : UploadInput)
    (customFilename : option string) (file : ProcessedFile) (name : string) :
  falsy_string customFilename = true ->
  snd (preprocessInput input customFilename env) = Ret (file, name) ->
  has_slash name = false.
Proof.
  intros Hh.
  assert (Hor : forall d, string_or customFilename d = d).
  { intros d. unfold string_or. rewrite Hh. reflexivity. }
  destruct input as [s | bytes | bytes | r |].
  - destruct (is_url s) eqn:Hurl.
    + rewrite preprocess_url by exact Hurl. simpl. rewrite Hh.
      destruct (http_get env s) as [body | e].
      * destruct (url_pathname env s) as [p|]; intros H; [|discriminate].
        inversion H; subst. apply basename_no_slash.
      * destruct (fromError e); discriminate.
    + destruct (data_uri_payload s) as [payload|] eqn:Hp.
      * rewrite (preprocess_data_uri_payload env s payload) by exact Hp.
        rewrite Hor. simpl. intros H. inversion H. reflexivity.
      * rewrite preprocess_path by assumption.
        destruct (existsSync env s); simpl; intros H; [|discriminate].
        rewrite Hor in H. inversion H; subst. apply basename_no_slash.
  - rewrite preprocess_buffer, Hor. simpl. intros H. inversion H. reflexivity.
  - rewrite preprocess_blob, Hor. simpl. intros H. inversion H. reflexivity.
  - rewrite preprocess_readable, Hor. simpl. intros H. inversion H. reflexivity.
  - simpl. discriminate.
Qed.

Lemma detected_filename_no_slash_witness : has_slash "cat.jpg" = false.
Proof.
  apply (detected_filename_no_slash sample_env
           (IString "https://example.com/a/cat.jpg") (Some "")
           (PBuffer (bytes_of_string "JFIF")) "cat.jpg");
    reflexivity.
Defined.

(** X17.  For a path [dir/name] that reaches the file rule and exists,
    with no override, the file is streamed from the whole path and sent
    under [name] alone. *)
Theorem local_file_named_after_last_segment (env : Env) (dir name : string)
    (customFilename : option string) :
  falsy_string customFilename = true ->
  name <> "" -> has_slash name = false ->
  is_url (dir ++ "/" ++ name) = false ->
  data_uri_payload (dir ++ "/" ++ name) = None ->
  existsSync env (dir ++ "/" ++ name) = true ->
  preprocessInput (IString (dir ++ "/" ++ name)) customFilename env
  = ([ExistsSync (dir ++ "/" ++ name)%string;
      CreateReadStream (dir ++ "/" ++ name)%string],
     Ret (PReadable (FileStream (dir ++ "/" ++ name)), name)).
Proof.
  intros Hh Hne Hno Hurl Hp Hex.
  rewrite preprocess_path by assumption. rewrite Hex.
  unfold string_or. rewrite Hh. rewrite basename_join by assumption.
  reflexivity.
Qed.

Lemma local_file_named_after_last_segment_witness :
  preprocessInput (IString ("/tmp/pics" ++ "/" ++ "cat.png")) None sample_env
  = ([ExistsSync ("/tmp/pics" ++ "/" ++ "cat.png")%string;
      CreateReadStream ("/tmp/pics" ++ "/" ++ "cat.png")%string],
     Ret (PReadable (FileStream ("/tmp/pics" ++ "/" ++ "cat.png")), "cat.png")).
Proof.
  apply (local_file_named_after_last_segment sample_env "/tmp/pics" "cat.png"
           None);
    try reflexivity.
  discriminate.
Defined.

(* ===================================================================== *)
(** ** More on the decoder                                               *)
(* ===================================================================== *)

Section DecoderFacts.

(** A character outside both alphabets, other than the padding
    character, is skipped. *)
Lemma sextets_skip (a b : string) (c : ascii) :
  unbase64 c = None -> (c =? "=")%char = false ->
  sextets (a ++ String c b) = sextets (a ++ b).
Proof.
  intros Hc Hpad. induction a as [|x a IH]; simpl.
  - rewrite Hc, Hpad. reflexivity.
  - rewrite IH. reflexivity.
Qed.

(** Nothing is read past the first padding character. *)
Lemma sextets_stop (a b : string) :
  sextets (a ++ String "=" b) = sextets a.
Proof.
  induction a as [|x a IH]; simpl; [reflexivity|].
  rewrite IH. reflexivity.
Qed.

End DecoderFacts.

(** X18.  The decoder of the data-URI branch is lenient: a character
    that belongs to neither base64 alphabet and is not [=] can be
    inserted anywhere in a payload without changing the decoded bytes,
    and everything from the first [=] on is ignored. *)
Theorem decoder_is_lenient (a b : string) :
  (forall c : ascii,
      unbase64 c = None -> (c =? "=")%char = false ->
      base64_decode (a ++ String c b) = base64_decode (a ++ b))
  /\ base64_decode (a ++ String "=" b) = base64_decode a.
Proof.
  unfold base64_decode. split.
  - intros c Hc Hpad. rewrite sextets_skip by assumption. reflexivity.
  - rewrite sextets_stop. reflexivity.
Qed.

Lemma decoder_is_lenient_witness :
  base64_decode ("QU" ++ String " " "JD") = base64_decode ("QU" ++ "JD")
  /\ base64_decode ("QUJD" ++ String "=" "QUJD") = base64_decode "QUJD".
Proof.
  split.
  - apply (proj1 (decoder_is_lenient "QU" "JD")); reflexivity.
  - apply (proj2 (decoder_is_lenient "QUJD" "QUJD")).
Defined.

(* ===================================================================== *)
(** ** From a data URI to the request                                    *)
(* ===================================================================== *)

Lemma startsWith_app (p s : string) : startsWith (p ++ s) p = true.
Proof.
  induction p as [|c p IH].
  - destruct s; reflexivity.
  - cbn [append startsWith]. rewrite Ascii.eqb_refl, IH. reflexivity.
Qed.

(** X19.  Uploading the data URI of an image whose payload is the padded
    base64 encoding of some bytes sends exactly those bytes: the single
    external call is the upload request, made with the buffer of the
    original bytes, and the server's answer is returned. *)
Theorem upload_data_uri_sends_bytes (env : Env) (client : ImgfansClient)
    (subtype : string) (bytes : Buffer) (filename : option string) (v : JsVal) :
  no_line_terminator subtype = true -> bytes <> [] ->
  http_post env (upload_url client) (client_headers client)
            (PBuffer bytes) (string_or filename "image.png") = Ret v ->
  upload client
    (IString ("data:image/" ++ subtype ++ ";base64," ++ base64_encode bytes))
    filename env
  = ([HttpPost (upload_url client) (string_or filename "image.png")], Ret v).
Proof.
  intros Hlt Hbytes Hpost.
  set (input := ("data:image/" ++ subtype ++ ";base64," ++ base64_encode bytes)%string).
  assert (Hmatch : match_data_uri input
                   = Some (("image/" ++ subtype)%string, base64_encode bytes)).
  { apply (match_data_uri_plain ("image/" ++ subtype) (base64_encode bytes)).
    - discriminate.
    - rewrite no_line_terminator_app, Hlt. reflexivity.
    - apply base64_encode_nonempty. exact Hbytes.
    - apply base64_encode_plain. }
  assert (Hp : data_uri_payload input = Some (base64_encode bytes)).
  { unfold data_uri_payload. rewrite Hmatch.
    unfold input. rewrite startsWith_app. reflexivity. }
  rewrite upload_run.
  rewrite (preprocess_data_uri_payload env input (base64_encode bytes) filename Hp).
  rewrite base64_decode_encode, Hpost. reflexivity.
Qed.

Lemma upload_data_uri_sends_bytes_witness :
  upload sample_client
    (IString ("data:image/" ++ "png" ++ ";base64,"
              ++ base64_encode (bytes_of_string "ABCD")))
    None sample_env
  = ([HttpPost (upload_url sample_client) (string_or None "image.png")],
     Ret sample_response).
Proof.
  apply (upload_data_uri_sends_bytes sample_env sample_client "png"
           (bytes_of_string "ABCD") None sample_response).
  - reflexivity.
  - discriminate.
  - reflexivity.
Defined.
